(** * Red-Carduh: workout-plan generation, session progression and ledger

    A shallow embedding of the engine that lives in the [App] component
    (the named [src/App.tsx] and the later revision of the same component
    that adds focus categories, phases and the skip buttons).  React state
    is modelled by a record, every handler by a function on that record,
    and the rest-timer effect by the function [restTimerEffect].

    Numbers.  JavaScript numbers are IEEE-754 binary64; the real-valued
    ones (MET, body weight, rest seconds, repetition targets, calories)
    are primitive floats.  Quantities that the code only ever fills with
    integers (array indices, day numbers, millisecond timestamps, array
    lengths) are kept in [Z]; [JS.Z2F] is the correctly rounded injection
    used where such a value enters a floating-point expression. *)

From Stdlib Require Import ZArith List String Bool Floats Lia Permutation.
Import ListNotations.

(* Decimal literals such as 3.8 and 0.05 denote the nearest binary64
   value, exactly as the same literals do in the source. *)
Set Warnings "-inexact-float".

Local Open Scope string_scope.
Local Open Scope list_scope.
Local Open Scope Z_scope.

(** ** JavaScript primitives used by the component *)

Module JS.

(** An integer as a binary64 number (round to nearest, ties to even). *)
Definition Z2F (z : Z) : float :=
  SF2Prim (binary_normalize prec emax z 0 false).

(** [Math.round]: the integer closest to [x], ties towards +infinity;
    NaN, the infinities and the zeros are returned unchanged, and a
    negative argument that rounds to zero gives -0. *)
Definition Math_round (x : float) : float :=
  match Prim2SF x with
  | S754_finite s m e =>
      if 0 <=? e then x
      else
        let half := 2 ^ (- e) in
        let twice := if s then half - 2 * Z.pos m else half + 2 * Z.pos m in
        let n := twice / (2 * half) in
        if n =? 0 then (if s then neg_zero else zero) else Z2F n
  | _ => x
  end.

(** [Array.prototype.length]. *)
Definition length {A} (l : list A) : Z := Z.of_nat (List.length l).

(** [arr[i]] for an integer [i]: [None] stands for [undefined]. *)
Definition index {A} (l : list A) (i : Z) : option A :=
  if i <? 0 then None else nth_error l (Z.to_nat i).

(** [arr.includes(x)] on an array of integers. *)
Definition includes (l : list Z) (x : Z) : bool := existsb (Z.eqb x) l.

(** Truthiness of a string: only the empty string is falsy. *)
Definition truthy (s : string) : bool := negb (s =? "")%string.

(** [Set.prototype.add] on the insertion-ordered contents of a Set. *)
Definition Set_add (elems : list Z) (x : Z) : list Z :=
  if includes elems x then elems else elems ++ [x].

(** [[...new Set(arr)]]: the elements of [arr] in order of first
    occurrence. *)
Definition Set_spread (arr : list Z) : list Z := fold_left Set_add arr [].

(** [Math.max(...arr)] for a non-empty array of integers [x :: arr]. *)
Definition Math_max (x : Z) (arr : list Z) : Z := fold_left Z.max arr x.

End JS.

(** ** Types *)

Inductive Gender := male | female | other.

Module UserData.
Record t := mk
  { name : string;
    height : float;
    weight : float;
    dob : string;
    gender : Gender;
    onboarded : bool }.
End UserData.

Record WorkoutConfig := mkConfig
  { sessionDuration : float;
    restDuration : float }.

Record Exercise := mkExercise
  { id : string;
    name : string;
    category : string;
    met : float;
    baseReps : Z }.

(** The object [{ ...base, reps }] built by the plan generator. *)
Record PlanItem := mkItem
  { exercise :> Exercise;
    reps : float }.

Record SessionState := mkSession
  { isActive : bool;
    currentDay : Z;
    currentExerciseIndex : Z;
    isResting : bool;
    restTimeLeft : float;
    startTime : option Z;
    focusCategory : option string }.

Inductive View := onboarding | dashboard | workout | settings | summary | progress.

Record Stats := mkStats
  { calories : float;
    duration : Z }.

(** The state hooks of [App] that the engine reads or writes. *)
Record App := mkApp
  { userData : UserData.t;
    config : WorkoutConfig;
    completedDays : list Z;
    view : View;
    lastStats : option Stats;
    session : SessionState }.

(** ** Constants *)

Definition CATEGORIES : list string :=
  ["Arms & Biceps"; "Legs"; "Shoulders"; "Abs"; "Back"].

(** The catalog of the revision with focus categories (23 exercises). *)
Definition EXERCISES : list Exercise :=
  [ mkExercise "e1" "Push-ups" "Arms & Biceps" 8.0 10;
    mkExercise "e2" "Diamond Push-ups" "Arms & Biceps" 8.5 8;
    mkExercise "e3" "Bicep Curls" "Arms & Biceps" 4.0 15;
    mkExercise "e14" "Tricep Dips" "Arms & Biceps" 5.0 12;
    mkExercise "e15" "Hammer Curls" "Arms & Biceps" 4.0 15;
    mkExercise "e4" "Squats" "Legs" 5.0 15;
    mkExercise "e5" "Lunges" "Legs" 5.5 12;
    mkExercise "e6" "Calf Raises" "Legs" 3.5 20;
    mkExercise "e16" "Bulgarian Split Squats" "Legs" 6.0 10;
    mkExercise "e17" "Glute Bridges" "Legs" 4.0 15;
    mkExercise "e7" "Shoulder Taps" "Shoulders" 4.5 20;
    mkExercise "e8" "Pike Push-ups" "Shoulders" 6.0 8;
    mkExercise "e18" "Lateral Raises" "Shoulders" 4.0 12;
    mkExercise "e19" "Front Raises" "Shoulders" 4.0 12;
    mkExercise "e9" "Crunches" "Abs" 3.8 20;
    mkExercise "e10" "Plank" "Abs" 4.0 30;
    mkExercise "e11" "Leg Raises" "Abs" 4.0 12;
    mkExercise "e20" "Russian Twists" "Abs" 4.5 20;
    mkExercise "e21" "Mountain Climbers" "Abs" 8.0 30;
    mkExercise "e12" "Superman" "Back" 4.0 12;
    mkExercise "e13" "Bird Dog" "Back" 3.5 15;
    mkExercise "e22" "Reverse Flys" "Back" 4.0 12;
    mkExercise "e23" "Cat-Cow" "Back" 2.5 10 ].

(** The catalog of [src/App.tsx] (13 exercises). *)
Definition EXERCISES_src : list Exercise :=
  [ mkExercise "e1" "Push-ups" "Arms & Biceps" 8.0 10;
    mkExercise "e2" "Diamond Push-ups" "Arms & Biceps" 8.5 8;
    mkExercise "e3" "Bicep Curls" "Arms & Biceps" 4.0 15;
    mkExercise "e4" "Squats" "Legs" 5.0 15;
    mkExercise "e5" "Lunges" "Legs" 5.5 12;
    mkExercise "e6" "Calf Raises" "Legs" 3.5 20;
    mkExercise "e7" "Shoulder Taps" "Shoulders" 4.5 20;
    mkExercise "e8" "Pike Push-ups" "Shoulders" 6.0 8;
    mkExercise "e9" "Crunches" "Abs" 3.8 20;
    mkExercise "e10" "Plank" "Abs" 4.0 30;
    mkExercise "e11" "Leg Raises" "Abs" 4.0 12;
    mkExercise "e12" "Superman" "Back" 4.0 12;
    mkExercise "e13" "Bird Dog" "Back" 3.5 15 ].

Definition INITIAL_USER_DATA : UserData.t :=
  UserData.mk "" 175 70 "1995-01-01" male false.

Definition INITIAL_CONFIG : WorkoutConfig := mkConfig 30 30.

(** ** Plan generation and calorie accounting *)

(** Sequencing of computations that may throw ([None] is a thrown
    [TypeError]). *)
Definition bind {A B} (m : option A) (k : A -> option B) : option B :=
  match m with
  | Some a => k a
  | None => None
  end.

Notation "x <- m ;; k" := (bind m (fun x => k))
  (at level 61, m at next level, right associativity).

(** [arr.map(f)] for a callback that may throw. *)
Fixpoint mapM {A B} (f : A -> option B) (l : list A) : option (list B) :=
  match l with
  | [] => Some []
  | a :: l' => b <- f a ;; bs <- mapM f l' ;; Some (b :: bs)
  end.

Definition intensity (day : Z) : float := (1 + (JS.Z2F day - 1) * 0.05)%float.

Definition scaled (intens : float) (base : Exercise) : PlanItem :=
  mkItem base (JS.Math_round (JS.Z2F (baseReps base) * intens)%float).

Section Engine.

(** The exercise catalog in scope ([EXERCISES] in either revision). *)
Variable catalog : list Exercise.

Definition inCategory (cat : string) : list Exercise :=
  filter (fun e => (category e =? cat)%string) catalog.

(** [getWorkoutForDay(day, focusCategory?)].  With a (truthy) focus
    category the plan is that category's exercises; otherwise one
    exercise per category, [catExercises[day % catExercises.length]].
    Reading [base.baseReps] when that element is [undefined] throws.
    The revision without focus categories is the case
    [focusCategory = None]. *)
Definition getWorkoutForDay (day : Z) (focusCategory : option string)
  : option (list PlanItem) :=
  let intens := intensity day in
  let rotation :=
    mapM (fun cat =>
            let catExercises := inCategory cat in
            base <- JS.index catExercises (Z.rem day (JS.length catExercises)) ;;
            Some (scaled intens base)) CATEGORIES in
  match focusCategory with
  | Some cat =>
      if JS.truthy cat then Some (map (scaled intens) (inCategory cat))
      else rotation
  | None => rotation
  end.

(** What the rotation is to pick for category [cat] on [day]: the
    exercise at index [day mod |catalog[cat]|] of the category, with the
    scaled repetition target. *)
Definition pick (day : Z) (cat : string) (item : PlanItem) : Prop :=
  nth_error (inCategory cat)
            (Z.to_nat (day mod JS.length (inCategory cat)))
  = Some (exercise item)
  /\ reps item
     = JS.Math_round (JS.Z2F (baseReps item) * (1 + (JS.Z2F day - 1) * 0.05))%float.

Definition currentWorkout (st : App) : option (list PlanItem) :=
  getWorkoutForDay (currentDay (session st)) (focusCategory (session st)).

Definition calculateCalories (st : App) (met durationSec : float) : float :=
  (met * UserData.weight (userData st) * (durationSec / 3600))%float.

(** The sum over the plan of [met * weight * (60 / 3600)], added up from
    0 in plan order: every exercise is charged sixty seconds. *)
Definition nominalCalories (st : App) (plan : list PlanItem) : float :=
  fold_left (fun acc (item : PlanItem) =>
               (acc + met item * UserData.weight (userData st) * (60 / 3600))%float)
            plan 0%float.

(** *** Session handlers *)

Definition setSession (f : SessionState -> SessionState) (st : App) : App :=
  mkApp (userData st) (config st) (completedDays st) (view st) (lastStats st)
        (f (session st)).

Definition setView (v : View) (st : App) : App :=
  mkApp (userData st) (config st) (completedDays st) v (lastStats st)
        (session st).

Definition setConfig (f : WorkoutConfig -> WorkoutConfig) (st : App) : App :=
  mkApp (userData st) (f (config st)) (completedDays st) (view st)
        (lastStats st) (session st).

Definition setUserData (f : UserData.t -> UserData.t) (st : App) : App :=
  mkApp (f (userData st)) (config st) (completedDays st) (view st)
        (lastStats st) (session st).

Definition setCompletedDays (f : list Z -> list Z) (st : App) : App :=
  mkApp (userData st) (config st) (f (completedDays st)) (view st)
        (lastStats st) (session st).

Definition setLastStats (r : option Stats) (st : App) : App :=
  mkApp (userData st) (config st) (completedDays st) (view st) r (session st).

(** [startWorkout(day, focusCategory?)]; [now] is the value of
    [Date.now()]. *)
Definition startWorkout (day : Z) (focus : option string) (now : Z) (st : App) : App :=
  setView workout
    (setSession (fun _ =>
       mkSession true day 0 false (restDuration (config st)) (Some now) focus) st).

(** The updater [prev => [...new Set([...prev, day])]] handed to
    [setCompletedDays]. *)
Definition recordCompletion (day : Z) (prev : list Z) : list Z :=
  JS.Set_spread (prev ++ [day]).

(** [session.startTime || Date.now()]: [null] and [0] are falsy. *)
Definition startOr (start : option Z) (now' : Z) : Z :=
  match start with
  | Some t => if t =? 0 then now' else t
  | None => now'
  end.

(** [nextExercise()], the COMPLETE PHASE button.  [now] is the first
    reading of the clock and [now'] the second one, taken only when the
    session has no start time.  Timestamps are integer milliseconds, and
    on integers below 2^53 [Math.floor(x / 60000)] is the quotient rounded
    towards minus infinity, which is [Z.div]. *)
Definition nextExercise (now now' : Z) (st : App) : option App :=
  plan <- currentWorkout st ;;
  if currentExerciseIndex (session st) <? JS.length plan - 1 then
    Some (setSession (fun prev =>
            mkSession (isActive prev) (currentDay prev) (currentExerciseIndex prev)
                      true (restDuration (config st))
                      (startTime prev) (focusCategory prev)) st)
  else
    let durationMin := (now - startOr (startTime (session st)) now') / 60000 in
    let totalCals :=
      fold_left (fun acc (ex : PlanItem) => (acc + calculateCalories st (met ex) 60)%float)
                plan 0%float in
    Some (setSession (fun prev =>
            mkSession false (currentDay prev) (currentExerciseIndex prev)
                      (isResting prev) (restTimeLeft prev)
                      (startTime prev) (focusCategory prev))
         (setView summary
         (setCompletedDays (recordCompletion (currentDay (session st)))
         (setLastStats (Some (mkStats (JS.Math_round totalCals) durationMin)) st)))).

Definition skipToNextExercise (st : App) : option App :=
  plan <- currentWorkout st ;;
  if currentExerciseIndex (session st) <? JS.length plan - 1 then
    Some (setSession (fun prev =>
            mkSession (isActive prev) (currentDay prev) (currentExerciseIndex prev + 1)
                      false (restTimeLeft prev) (startTime prev) (focusCategory prev)) st)
  else Some st.

Definition previousExercise (st : App) : App :=
  if 0 <? currentExerciseIndex (session st) then
    setSession (fun prev =>
      mkSession (isActive prev) (currentDay prev) (currentExerciseIndex prev - 1)
                false (restTimeLeft prev) (startTime prev) (focusCategory prev)) st
  else st.

(** The SKIP RECOVERY button of the rest screen. *)
Definition skipRecovery (st : App) : App :=
  setSession (fun p =>
    mkSession (isActive p) (currentDay p) (currentExerciseIndex p) (isResting p)
              0%float (startTime p) (focusCategory p)) st.

(** The ABORT button of the workout screen: [setView('dashboard')]. *)
Definition abort (st : App) : App := setView dashboard st.

(** *** The rest timer

    The effect re-runs after every render in which [isActive],
    [isResting] or [restTimeLeft] changed.  Its first branch arms a
    one-second interval whose callback is [tick]; its second branch
    advances to the next exercise at once. *)

Inductive EffectOutcome :=
| TimerArmed
| Advanced (s : SessionState)
| NoEffect.

Definition restTimerEffect (s : SessionState) : EffectOutcome :=
  if isActive s && isResting s && (0 <? restTimeLeft s)%float then TimerArmed
  else if (restTimeLeft s =? 0)%float && isResting s then
    Advanced (mkSession (isActive s) (currentDay s) (currentExerciseIndex s + 1)
                        false (restTimeLeft s) (startTime s) (focusCategory s))
  else NoEffect.

(** The interval callback. *)
Definition tick (st : App) : App :=
  setSession (fun prev =>
    mkSession (isActive prev) (currentDay prev) (currentExerciseIndex prev)
              (isResting prev) (restTimeLeft prev - 1)%float
              (startTime prev) (focusCategory prev)) st.

(** *** Ledger-derived values and the Training Matrix

    [Math.floor(completedDays.length / 30)] is likewise [Z.div]. *)

Definition currentPhase (completedDays : list Z) : Z :=
  JS.length completedDays / 30 + 1.

Definition phaseDayOffset (completedDays : list Z) : Z :=
  (currentPhase completedDays - 1) * 30.

Definition phaseProgress (completedDays : list Z) : Z :=
  JS.length (filter (fun d => (phaseDayOffset completedDays <? d)
                              && (d <=? phaseDayOffset completedDays + 30))
                    completedDays).

(** [completedDays.length > 0 ? Math.max(...completedDays) + 1 : 1], the
    day the grid highlights as next. *)
Definition nextAvailableDay (completedDays : list Z) : Z :=
  match completedDays with
  | [] => 1
  | d :: ds => JS.Math_max d ds + 1
  end.

Definition isDone (completedDays : list Z) (day : Z) : bool :=
  JS.includes completedDays day.

Definition isNext (completedDays : list Z) (day : Z) : bool :=
  day =? nextAvailableDay completedDays.

(** Whether the LOCKED overlay is rendered on the cell of [day]. *)
Definition locked (completedDays : list Z) (day : Z) : bool :=
  negb (isDone completedDays day) && negb (isNext completedDays day)
  && (JS.length completedDays + 1 <? day).

(** The day shown in cell [i] of the 30-cell grid. *)
Definition gridDay (completedDays : list Z) (i : Z) : Z :=
  phaseDayOffset completedDays + i + 1.

Definition trainingMatrix (completedDays : list Z) : list Z :=
  map (fun i => gridDay completedDays (Z.of_nat i)) (seq 0 30).

End Engine.

(** ** The component as a transition system *)

Definition View_eqb (a b : View) : bool :=
  match a, b with
  | onboarding, onboarding | dashboard, dashboard | workout, workout
  | settings, settings | summary, summary | progress, progress => true
  | _, _ => false
  end.

(** The state built by the [useState] initialisers from what
    [localStorage] holds (or from the defaults when it holds nothing). *)
Definition initialApp (u : UserData.t) (c : WorkoutConfig) (stored : list Z) : App :=
  mkApp u c stored
        (if UserData.onboarded u then dashboard else onboarding)
        None
        (mkSession false 1 0 false (restDuration c) None None).

(** What can happen to a mounted component: the controls of each view,
    the interval callback and the state-changing branch of the effect. *)
Inductive Event :=
| InitializeGrid
| EditProfile (name : string) (height weight : float) (dob : string) (g : Gender)
| Navigate (v : View)
| SelectDay (i : nat) (now : Z)
| FocusDay (cat : string) (now : Z)
| Resume (now : Z)
| Complete (now now' : Z)
| SkipForward
| SkipBackward
| SkipRecovery
| Abort
| AdjustRest (r : float)
| SetConfig (c : WorkoutConfig)
| ReturnToGrid
| Purge
| Tick
| RestElapsed.

Definition guard (b : bool) : option unit := if b then Some tt else None.

Section Machine.

Variable catalog : list Exercise.

(** The workout screen shows the rest screen while resting and the
    exercise screen otherwise. *)
Definition onExerciseScreen (st : App) : bool :=
  View_eqb (view st) workout && negb (isResting (session st)).

Definition onRestScreen (st : App) : bool :=
  View_eqb (view st) workout && isResting (session st).

Definition navShown (v : View) : bool :=
  View_eqb v dashboard || View_eqb v settings || View_eqb v progress.

(** One event on a component whose last render succeeded ([None]: the
    control is not on screen, or the render or the handler threw). *)
Definition handle (ev : Event) (st : App) : option App :=
  _ <- currentWorkout catalog st ;;
  match ev with
  | InitializeGrid =>
      _ <- guard (View_eqb (view st) onboarding) ;;
      Some (setView dashboard
             (setUserData (fun p =>
                UserData.mk (UserData.name p) (UserData.height p) (UserData.weight p)
                            (UserData.dob p) (UserData.gender p) true) st))
  | EditProfile n h w d g =>
      _ <- guard (View_eqb (view st) onboarding || View_eqb (view st) settings) ;;
      Some (setUserData (fun p => UserData.mk n h w d g (UserData.onboarded p)) st)
  | Navigate v =>
      _ <- guard (navShown (view st) && navShown v) ;;
      Some (setView v st)
  | SelectDay i now =>
      _ <- guard (View_eqb (view st) dashboard && (i <? 30)%nat) ;;
      Some (startWorkout (gridDay (completedDays st) (Z.of_nat i)) None now st)
  | FocusDay cat now =>
      _ <- guard (View_eqb (view st) dashboard
                  && existsb (String.eqb cat) CATEGORIES) ;;
      Some (startWorkout (JS.length (completedDays st) + 1) (Some cat) now st)
  | Resume now =>
      _ <- guard (View_eqb (view st) dashboard) ;;
      Some (startWorkout (JS.length (completedDays st) + 1) None now st)
  | Complete now now' =>
      _ <- guard (onExerciseScreen st) ;;
      nextExercise catalog now now' st
  | SkipForward =>
      _ <- guard (onExerciseScreen st) ;;
      skipToNextExercise catalog st
  | SkipBackward =>
      _ <- guard (onExerciseScreen st) ;;
      Some (previousExercise st)
  | SkipRecovery =>
      _ <- guard (onRestScreen st) ;;
      Some (skipRecovery st)
  | Abort =>
      _ <- guard (onExerciseScreen st) ;;
      Some (abort st)
  | AdjustRest r =>
      _ <- guard (onExerciseScreen st && negb (is_nan r)) ;;
      Some (setConfig (fun p => mkConfig (sessionDuration p) r) st)
  | SetConfig c =>
      _ <- guard (View_eqb (view st) settings) ;;
      Some (setConfig (fun _ => c) st)
  | ReturnToGrid =>
      _ <- guard (View_eqb (view st) summary) ;;
      Some (setView dashboard st)
  | Purge =>
      _ <- guard (View_eqb (view st) settings) ;;
      Some (initialApp INITIAL_USER_DATA INITIAL_CONFIG [])
  | Tick =>
      match restTimerEffect (session st) with
      | TimerArmed => Some (tick st)
      | _ => None
      end
  | RestElapsed =>
      match restTimerEffect (session st) with
      | Advanced s' => Some (setSession (fun _ => s') st)
      | _ => None
      end
  end.

Inductive reachable : App -> Prop :=
| reachable_init u c stored :
    reachable (initialApp u c stored)
| reachable_step st ev st' :
    reachable st -> handle ev st = Some st' -> reachable st'.

(** Each category of the catalog has at least one exercise. *)
Definition catalog_ok : bool :=
  forallb (fun cat => negb (JS.length (inCategory catalog cat) =? 0)) CATEGORIES.

(** A focus category, when there is one, is one of [CATEGORIES]. *)
Definition focus_ok (focus : option string) : Prop :=
  match focus with
  | Some cat => In cat CATEGORIES
  | None => True
  end.

(** The pointer stays inside the plan, and a resting session always has
    a next exercise to advance to. *)
Definition session_ok (s : SessionState) : Prop :=
  0 <= currentDay s
  /\ focus_ok (focusCategory s)
  /\ exists plan,
       getWorkoutForDay catalog (currentDay s) (focusCategory s) = Some plan
       /\ 0 <= currentExerciseIndex s < JS.length plan
       /\ (isResting s = true -> currentExerciseIndex s < JS.length plan - 1).

End Machine.

(** ** Runs and sample states *)

(** The days [a, a+1, ..., a+n-1]. *)
Definition interval (a : Z) (n : nat) : list Z :=
  map (fun k => a + Z.of_nat k) (seq 0 n).

(** The events of [evs] one after the other. *)
Fixpoint run (catalog : list Exercise) (evs : list Event) (st : App) : option App :=
  match evs with
  | [] => Some st
  | ev :: evs' => st' <- handle catalog ev st ;; run catalog evs' st'
  end.

(** A profile that has been through onboarding, with the default body
    weight of 70 kg. *)
Definition onboardedUser : UserData.t :=
  UserData.mk "Sam" 175 70 "1995-01-01" male true.

(** The dashboard of a fresh installation. *)
Definition freshApp : App := initialApp onboardedUser INITIAL_CONFIG [].

(** Day 1 has just been started from the grid. *)
Definition midSession : App := startWorkout 1 None 1700000000000 freshApp.

(** The same session on its fifth and last exercise. *)
Definition lastExercise : App :=
  setSession (fun s =>
    mkSession (isActive s) (currentDay s) 4 (isResting s) (restTimeLeft s)
              (startTime s) (focusCategory s)) midSession.

(** The same session resting after its first exercise, one second left. *)
Definition lastRestSecond : App :=
  setSession (fun s =>
    mkSession (isActive s) (currentDay s) (currentExerciseIndex s) true 1%float
              (startTime s) (focusCategory s)) midSession.

Definition day1Plan : list PlanItem :=
  [ mkItem (mkExercise "e2" "Diamond Push-ups" "Arms & Biceps" 8.5 8) 8;
    mkItem (mkExercise "e5" "Lunges" "Legs" 5.5 12) 12;
    mkItem (mkExercise "e8" "Pike Push-ups" "Shoulders" 6.0 8) 8;
    mkItem (mkExercise "e10" "Plank" "Abs" 4.0 30) 30;
    mkItem (mkExercise "e13" "Bird Dog" "Back" 3.5 15) 15 ].

(** ** What the views derive from the state *)

(** [Math.round((phaseProgress / 30) * 100)]: the percentage written on
    the dashboard's progress bar and in the progress view's ring. *)
Definition syncPercent (completedDays : list Z) : float :=
  JS.Math_round (JS.Z2F (phaseProgress completedDays) / 30 * 100)%float.

(** [completedDays.length + 1]: the day that RESUME SESSION and the
    Targeted Days buttons start. *)
Definition resumeDay (completedDays : list Z) : Z :=
  JS.length completedDays + 1.

(** [[...completedDays].reverse().slice(0, 6)], the RECENT ACTIVITY cards
    of the progress view. *)
Definition recentActivity (completedDays : list Z) : list Z :=
  firstn 6 (rev completedDays).

(** The CHECKPOINTS list of the progress view: one card per finished
    phase, [Array.from({ length: currentPhase - 1 })], card [i] showing
    [DAYS i*30+1 - (i+1)*30]. *)
Definition checkpoints (completedDays : list Z) : list (Z * Z) :=
  map (fun i => (Z.of_nat i * 30 + 1, (Z.of_nat i + 1) * 30))
      (seq 0 (Z.to_nat (currentPhase completedDays - 1))).

(** [currentWorkout[session.currentExerciseIndex]], the exercise the
    workout screen shows, and [currentWorkout[session.currentExerciseIndex + 1]],
    the one the rest screen announces after "Next:". *)
Definition currentExercise (catalog : list Exercise) (st : App) : option PlanItem :=
  plan <- currentWorkout catalog st ;;
  JS.index plan (currentExerciseIndex (session st)).

Definition announcedNext (catalog : list Exercise) (st : App) : option PlanItem :=
  plan <- currentWorkout catalog st ;;
  JS.index plan (currentExerciseIndex (session st) + 1).

(** The dashboard of [src/App.tsx], the revision without phases: its
    grid always shows days 1 to 30 ([day = i + 1]) and its header shows
    [Math.round((completedDays.length / 30) * 100)] per cent. *)
Definition trainingMatrix_src : list Z :=
  map (fun i => Z.of_nat i + 1) (seq 0 30).

Definition completePercent_src (completedDays : list Z) : float :=
  JS.Math_round (JS.Z2F (JS.length completedDays) / 30 * 100)%float.

(** The [disabled] attributes of the two chevrons of the workout screen. *)
Definition backDisabled (st : App) : bool :=
  currentExerciseIndex (session st) =? 0.

Definition forwardDisabled (catalog : list Exercise) (st : App) : option bool :=
  plan <- currentWorkout catalog st ;;
  Some (currentExerciseIndex (session st) =? JS.length plan - 1).

(** Working through the rest of a plan with [k] exercises still to
    come after the current one: COMPLETE PHASE and SKIP RECOVERY, the
    effect advancing in between, and a last COMPLETE PHASE. *)
Fixpoint finishFrom (k : nat) (now : Z) : list Event :=
  match k with
  | O => [Complete now now]
  | S k' => Complete now now :: SkipRecovery :: RestElapsed :: finishFrom k' now
  end.

(** The repetition target in exact arithmetic:
    [baseReps * (1 + (day - 1) / 20)] rounded to the nearest integer,
    halves upwards. *)
Definition exactReps (baseReps day : Z) : Z :=
  (baseReps * (day + 19) + 10) / 20.

Definition itemExact (day : Z) (item : PlanItem) : bool :=
  PrimFloat.Leibniz.eqb (reps item) (JS.Z2F (exactReps (baseReps item) day)).

Definition planExact (catalog : list Exercise) (focus : option string) (day : Z) : bool :=
  match getWorkoutForDay catalog day focus with
  | Some plan => forallb (itemExact day) plan
  | None => false
  end.

(** ** The transitions, case by case

    [Step ev st st'] lists what each event does to a state on which it is
    enabled; it is [handle] read as a relation (see [handle_Step]). *)

Definition completed (now now' : Z) (plan : list PlanItem) (st : App) : App :=
  mkApp (userData st) (config st)
        (recordCompletion (currentDay (session st)) (completedDays st))
        summary
        (Some (mkStats (JS.Math_round (nominalCalories st plan))
                       ((now - startOr (startTime (session st)) now') / 60000)))
        (mkSession false (currentDay (session st))
                   (currentExerciseIndex (session st))
                   (isResting (session st)) (restTimeLeft (session st))
                   (startTime (session st)) (focusCategory (session st))).

Definition resting (st : App) : App :=
  setSession (fun prev =>
    mkSession (isActive prev) (currentDay prev) (currentExerciseIndex prev)
              true (restDuration (config st))
              (startTime prev) (focusCategory prev)) st.

Definition advanced (st : App) : App :=
  setSession (fun prev =>
    mkSession (isActive prev) (currentDay prev) (currentExerciseIndex prev + 1)
              false (restTimeLeft prev) (startTime prev) (focusCategory prev)) st.

Inductive Step (catalog : list Exercise) : Event -> App -> App -> Prop :=
| Step_InitializeGrid st :
    view st = onboarding ->
    Step catalog InitializeGrid st
         (setView dashboard
            (setUserData (fun p =>
               UserData.mk (UserData.name p) (UserData.height p) (UserData.weight p)
                           (UserData.dob p) (UserData.gender p) true) st))
| Step_EditProfile st n h w d g :
    view st = onboarding \/ view st = settings ->
    Step catalog (EditProfile n h w d g) st
         (setUserData (fun p => UserData.mk n h w d g (UserData.onboarded p)) st)
| Step_Navigate st v :
    navShown (view st) = true -> navShown v = true ->
    Step catalog (Navigate v) st (setView v st)
| Step_SelectDay st i now :
    view st = dashboard -> (i < 30)%nat ->
    Step catalog (SelectDay i now) st
         (startWorkout (gridDay (completedDays st) (Z.of_nat i)) None now st)
| Step_FocusDay st cat now :
    view st = dashboard -> In cat CATEGORIES ->
    Step catalog (FocusDay cat now) st
         (startWorkout (JS.length (completedDays st) + 1) (Some cat) now st)
| Step_Resume st now :
    view st = dashboard ->
    Step catalog (Resume now) st
         (startWorkout (JS.length (completedDays st) + 1) None now st)
| Step_Complete_rest st plan now now' :
    onExerciseScreen st = true -> currentWorkout catalog st = Some plan ->
    currentExerciseIndex (session st) < JS.length plan - 1 ->
    Step catalog (Complete now now') st (resting st)
| Step_Complete_done st plan now now' :
    onExerciseScreen st = true -> currentWorkout catalog st = Some plan ->
    JS.length plan - 1 <= currentExerciseIndex (session st) ->
    Step catalog (Complete now now') st (completed now now' plan st)
| Step_SkipForward st plan :
    onExerciseScreen st = true -> currentWorkout catalog st = Some plan ->
    currentExerciseIndex (session st) < JS.length plan - 1 ->
    Step catalog SkipForward st (advanced st)
| Step_SkipForward_last st plan :
    onExerciseScreen st = true -> currentWorkout catalog st = Some plan ->
    JS.length plan - 1 <= currentExerciseIndex (session st) ->
    Step catalog SkipForward st st
| Step_SkipBackward st :
    onExerciseScreen st = true ->
    Step catalog SkipBackward st (previousExercise st)
| Step_SkipRecovery st :
    onRestScreen st = true ->
    Step catalog SkipRecovery st (skipRecovery st)
| Step_Abort st :
    onExerciseScreen st = true ->
    Step catalog Abort st (abort st)
| Step_AdjustRest st r :
    onExerciseScreen st = true -> is_nan r = false ->
    Step catalog (AdjustRest r) st
         (setConfig (fun p => mkConfig (sessionDuration p) r) st)
| Step_SetConfig st c :
    view st = settings ->
    Step catalog (SetConfig c) st (setConfig (fun _ => c) st)
| Step_ReturnToGrid st :
    view st = summary ->
    Step catalog ReturnToGrid st (setView dashboard st)
| Step_Purge st :
    view st = settings ->
    Step catalog Purge st (initialApp INITIAL_USER_DATA INITIAL_CONFIG [])
| Step_Tick st :
    restTimerEffect (session st) = TimerArmed ->
    Step catalog Tick st (tick st)
| Step_RestElapsed st :
    isResting (session st) = true ->
    restTimerEffect (session st) = Advanced (session (advanced st)) ->
    Step catalog RestElapsed st (advanced st).

(** What the screens rely on: the summary screen has statistics to show
    and names a completed day of a session that is over; the workout
    screen belongs to an active session with a start time; a rest is only
    ever in progress on the workout screen; and the onboarding screen is
    shown exactly to a user who has not been through it. *)
Definition screens_ok (st : App) : Prop :=
  (view st = summary ->
   lastStats st <> None
   /\ In (currentDay (session st)) (completedDays st)
   /\ isActive (session st) = false)
  /\ (view st = workout ->
      isActive (session st) = true /\ startTime (session st) <> None)
  /\ (isResting (session st) = true -> view st = workout)
  /\ (view st = onboarding <-> UserData.onboarded (userData st) = false).

(** A ledger of distinct days, all of them at least 1. *)
Definition ledger_ok (completedDays : list Z) : Prop :=
  NoDup completedDays /\ forall d, In d completedDays -> 1 <= d.

(** Day 1 started from the grid and worked through, every rest skipped:
    the state behind the summary screen. *)
Definition day1Events : list Event :=
  SelectDay 0 1700000000000 :: finishFrom 4 1700000125000.

Definition day1Summary : App :=
  match run EXERCISES day1Events freshApp with
  | Some st => st
  | None => freshApp
  end.

(** * Properties *)

(** ** Arrays and Sets *)

Lemma includes_In (l : list Z) (x : Z) : JS.includes l x = true <-> In x l.
Proof.
  unfold JS.includes. rewrite existsb_exists. split.
  - intros [y [Hy Heq]]. apply Z.eqb_eq in Heq. now subst.
  - intros H. exists x. split; [assumption | apply Z.eqb_refl].
Qed.

Lemma includes_false (l : list Z) (x : Z) : JS.includes l x = false <-> ~ In x l.
Proof.
  rewrite <- includes_In. destruct (JS.includes l x); split; congruence.
Qed.

Lemma Set_add_In (elems : list Z) (x y : Z) :
  In y (JS.Set_add elems x) <-> In y elems \/ y = x.
Proof.
  unfold JS.Set_add. destruct (JS.includes elems x) eqn:E.
  - apply includes_In in E. split; [auto | intros [H | ->]; assumption].
  - rewrite in_app_iff. simpl. intuition.
Qed.

Lemma Set_add_NoDup (elems : list Z) (x : Z) :
  NoDup elems -> NoDup (JS.Set_add elems x).
Proof.
  intros H. unfold JS.Set_add. destruct (JS.includes elems x) eqn:E; [assumption |].
  apply includes_false in E.
  apply NoDup_app; [assumption | repeat constructor; simpl; tauto |].
  intros y Hy [<- | []]. contradiction.
Qed.

Lemma Set_fold_In (arr acc : list Z) (y : Z) :
  In y (fold_left JS.Set_add arr acc) <-> In y acc \/ In y arr.
Proof.
  revert acc. induction arr as [| x arr IH]; intros acc; simpl.
  - tauto.
  - rewrite IH, Set_add_In. intuition.
Qed.

Lemma Set_fold_NoDup (arr acc : list Z) :
  NoDup acc -> NoDup (fold_left JS.Set_add arr acc).
Proof.
  revert acc. induction arr as [| x arr IH]; intros acc H; simpl.
  - assumption.
  - apply IH, Set_add_NoDup, H.
Qed.

Lemma Set_fold_fresh (arr acc : list Z) :
  NoDup (acc ++ arr) -> fold_left JS.Set_add arr acc = acc ++ arr.
Proof.
  revert acc. induction arr as [| x arr IH]; intros acc H; simpl.
  - now rewrite app_nil_r.
  - assert (Hx : JS.includes acc x = false).
    { apply includes_false. intros Hin.
      apply NoDup_remove_2 in H. apply H. apply in_or_app. now left. }
    unfold JS.Set_add at 2. rewrite Hx.
    rewrite IH; rewrite <- app_assoc; simpl; auto.
Qed.

Lemma Set_spread_In (arr : list Z) (y : Z) : In y (JS.Set_spread arr) <-> In y arr.
Proof. unfold JS.Set_spread. rewrite Set_fold_In. simpl. tauto. Qed.

Lemma Set_spread_NoDup (arr : list Z) : NoDup (JS.Set_spread arr).
Proof. apply Set_fold_NoDup. constructor. Qed.

Lemma Set_spread_fixed (arr : list Z) : NoDup arr -> JS.Set_spread arr = arr.
Proof. intros H. unfold JS.Set_spread. now rewrite Set_fold_fresh. Qed.

Lemma Set_spread_snoc (arr : list Z) (x : Z) :
  JS.Set_spread (arr ++ [x]) = JS.Set_add (JS.Set_spread arr) x.
Proof. unfold JS.Set_spread. now rewrite fold_left_app. Qed.

Lemma Math_max_upper (x : Z) (arr : list Z) :
  x <= JS.Math_max x arr /\ forall y, In y arr -> y <= JS.Math_max x arr.
Proof.
  unfold JS.Math_max. revert x. induction arr as [| a arr IH]; intros x; simpl.
  - split; [lia | tauto].
  - destruct (IH (Z.max x a)) as [H1 H2]. split; [lia |].
    intros y [<- | Hy]; [lia | auto].
Qed.

Lemma Math_max_In (x : Z) (arr : list Z) : In (JS.Math_max x arr) (x :: arr).
Proof.
  unfold JS.Math_max. revert x. induction arr as [| a arr IH]; intros x; simpl.
  - now left.
  - destruct (IH (Z.max x a)) as [H | H].
    + rewrite <- H. destruct (Z.max_spec x a) as [[_ E] | [_ E]]; rewrite E; auto.
    + auto.
Qed.

(** ** Plans *)

Lemma bind_Some {A B} (m : option A) (k : A -> option B) (b : B) :
  bind m k = Some b <-> exists a, m = Some a /\ k a = Some b.
Proof.
  destruct m as [a |]; simpl; split.
  - intros H. now exists a.
  - now intros [a' [[= ->] H]].
  - discriminate.
  - now intros [a' [[=] _]].
Qed.

Lemma mapM_Forall2 {A B} (f : A -> option B) (l : list A) (r : list B) :
  mapM f l = Some r <-> Forall2 (fun a b => f a = Some b) l r.
Proof.
  revert r. induction l as [| a l IH]; intros r; simpl.
  - split.
    + intros [= <-]. constructor.
    + intros H. now inversion H.
  - rewrite bind_Some. split.
    + intros [b [Hb H]]. apply bind_Some in H. destruct H as [bs [Hbs [= <-]]].
      constructor; [assumption | now apply IH].
    + intros H. inversion H as [| a' b l' bs Hb Hbs]; subst.
      exists b. split; [assumption |]. apply bind_Some.
      exists bs. split; [now apply IH | reflexivity].
Qed.

Lemma mapM_total {A B} (f : A -> option B) (l : list A) :
  (forall a, In a l -> exists b, f a = Some b) -> exists r, mapM f l = Some r.
Proof.
  induction l as [| a l IH]; intros H; simpl.
  - now exists [].
  - destruct (H a (or_introl eq_refl)) as [b Hb].
    destruct IH as [bs Hbs]; [intros; apply H; now right |].
    exists (b :: bs). now rewrite Hb, Hbs.
Qed.

Lemma index_rem {A} (l : list A) (day : Z) :
  0 <= day -> 0 < JS.length l ->
  JS.index l (Z.rem day (JS.length l))
  = nth_error l (Z.to_nat (day mod JS.length l))
  /\ exists a, nth_error l (Z.to_nat (day mod JS.length l)) = Some a.
Proof.
  intros Hd Hl. rewrite Z.rem_mod_nonneg by lia.
  pose proof (Z.mod_pos_bound day (JS.length l) Hl) as Hb.
  unfold JS.index. destruct (day mod JS.length l <? 0) eqn:E; [lia |].
  split; [reflexivity |].
  destruct (nth_error l (Z.to_nat (day mod JS.length l))) as [a |] eqn:En.
  - now exists a.
  - apply nth_error_None in En. unfold JS.length in *. lia.
Qed.

Lemma inCategory_category (catalog : list Exercise) (cat : string) (e : Exercise) :
  In e (inCategory catalog cat) -> category e = cat.
Proof.
  unfold inCategory. rewrite filter_In. intros [_ H]. now apply String.eqb_eq.
Qed.

Section PlanFacts.

Variable catalog : list Exercise.
Hypothesis Hok : catalog_ok catalog = true.

Lemma inCategory_nonempty (cat : string) :
  In cat CATEGORIES -> 0 < JS.length (inCategory catalog cat).
Proof.
  intros Hin. unfold catalog_ok in Hok. rewrite forallb_forall in Hok.
  specialize (Hok cat Hin). apply negb_true_iff, Z.eqb_neq in Hok.
  unfold JS.length in *. lia.
Qed.

Lemma rotation_plan (day : Z) :
  0 <= day ->
  exists plan,
    getWorkoutForDay catalog day None = Some plan
    /\ Forall2 (pick catalog day) CATEGORIES plan.
Proof.
  intros Hday. unfold getWorkoutForDay.
  match goal with |- context [mapM ?f _] => set (f0 := f) end.
  assert (Hf : forall cat, In cat CATEGORIES ->
                 exists item, f0 cat = Some item /\ pick catalog day cat item).
  { intros cat Hin. subst f0. cbv beta zeta.
    destruct (index_rem (inCategory catalog cat) day Hday
                (inCategory_nonempty cat Hin)) as [Hi [base Hb]].
    exists (scaled (intensity day) base). rewrite Hi, Hb. simpl.
    split; [reflexivity |]. split; [assumption | reflexivity]. }
  destruct (mapM_total f0 CATEGORIES) as [plan Hplan].
  { intros cat Hin. destruct (Hf cat Hin) as [item [Hi _]]. now exists item. }
  exists plan. split; [assumption |].
  apply mapM_Forall2 in Hplan.
  clear - Hplan Hf. induction Hplan as [| cat item cats items H1 Hrest IH].
  - constructor.
  - constructor.
    + destruct (Hf cat (or_introl eq_refl)) as [item' [Hi Hp]].
      rewrite H1 in Hi. injection Hi as <-. exact Hp.
    + apply IH. intros c Hc. apply Hf. now right.
Qed.



End PlanFacts.

(** ** The session invariant *)

Lemma CATEGORIES_truthy (cat : string) : In cat CATEGORIES -> JS.truthy cat = true.
Proof.
  unfold CATEGORIES. simpl.
  intros [<- | [<- | [<- | [<- | [<- | []]]]]]; reflexivity.
Qed.

Lemma CATEGORIES_mem (cat : string) :
  existsb (String.eqb cat) CATEGORIES = true -> In cat CATEGORIES.
Proof.
  rewrite existsb_exists. intros [c [Hc He]]. apply String.eqb_eq in He. now subst.
Qed.

Lemma phaseDayOffset_nonneg (completedDays : list Z) : 0 <= phaseDayOffset completedDays.
Proof.
  unfold phaseDayOffset, currentPhase, JS.length.
  pose proof (Z.div_pos (Z.of_nat (List.length completedDays)) 30). lia.
Qed.

Ltac guards :=
  repeat match goal with
    | H : bind _ _ = Some _ |- _ =>
        apply bind_Some in H; destruct H as [? [? H]]
    | H : guard ?b = Some _ |- _ =>
        unfold guard in H; destruct b eqn:?; [clear H | discriminate H]
    | H : Some _ = Some _ |- _ => injection H as H
    | H : (_ && _)%bool = true |- _ => apply andb_true_iff in H; destruct H
    end.

Section Invariant.

Variable catalog : list Exercise.
Hypothesis Hok : catalog_ok catalog = true.

Lemma plan_exists (day : Z) (focus : option string) :
  0 <= day -> focus_ok focus ->
  exists plan, getWorkoutForDay catalog day focus = Some plan /\ 0 < JS.length plan.
Proof.
  intros Hday Hf. destruct focus as [cat |].
  - simpl in Hf. unfold getWorkoutForDay. rewrite (CATEGORIES_truthy cat Hf).
    eexists. split; [reflexivity |].
    unfold JS.length. rewrite length_map.
    apply (inCategory_nonempty catalog Hok cat Hf).
  - destruct (rotation_plan catalog Hok day Hday) as [plan [Hp Hpick]].
    exists plan. split; [assumption |].
    apply Forall2_length in Hpick. unfold JS.length. rewrite <- Hpick.
    reflexivity.
Qed.

Lemma session_ok_start (day : Z) (focus : option string) (r : float) (now : Z) :
  0 <= day -> focus_ok focus ->
  session_ok catalog (mkSession true day 0 false r (Some now) focus).
Proof.
  intros Hday Hf. destruct (plan_exists day focus Hday Hf) as [plan [Hp Hl]].
  repeat split; simpl; try assumption.
  exists plan. repeat split; try assumption; try lia; try discriminate.
Qed.

Lemma session_ok_initial (c : WorkoutConfig) :
  session_ok catalog (mkSession false 1 0 false (restDuration c) None None).
Proof.
  destruct (plan_exists 1 None) as [plan [Hp Hl]]; [lia | exact I |].
  repeat split; simpl; try lia.
  exists plan. repeat split; try assumption; try lia; try discriminate.
Qed.

Lemma session_ok_update (s : SessionState) (plan : list PlanItem)
      (a : bool) (idx : Z) (r : bool) (t : float) :
  0 <= currentDay s -> focus_ok (focusCategory s) ->
  getWorkoutForDay catalog (currentDay s) (focusCategory s) = Some plan ->
  0 <= idx < JS.length plan ->
  (r = true -> idx < JS.length plan - 1) ->
  session_ok catalog (mkSession a (currentDay s) idx r t (startTime s) (focusCategory s)).
Proof.
  intros Hday Hf Hplan Hidx Hr. repeat split; simpl; try assumption.
  exists plan. repeat split; simpl; try assumption; lia.
Qed.

Lemma handle_preserves (ev : Event) (st st' : App) :
  session_ok catalog (session st) -> handle catalog ev st = Some st' ->
  session_ok catalog (session st').
Proof.
  intros Hinv H. unfold handle in H.
  apply bind_Some in H. destruct H as [plan0 [Hplan0 H]].
  pose proof Hinv as Hinv0.
  destruct Hinv as [Hday [Hf [plan [Hplan [Hidx Hrest]]]]].
  unfold currentWorkout in Hplan0.
  assert (plan0 = plan) by congruence. subst plan0.
  destruct ev; guards; subst; simpl; try exact Hinv0.
  - (* SelectDay *)
    apply session_ok_start; [| exact I].
    pose proof (phaseDayOffset_nonneg (completedDays st)).
    unfold gridDay. lia.
  - (* FocusDay *)
    apply session_ok_start; [unfold JS.length; lia |].
    simpl. now apply CATEGORIES_mem.
  - (* Resume *)
    apply session_ok_start; [unfold JS.length; lia | exact I].
  - (* Complete *)
    unfold nextExercise, currentWorkout in H. rewrite Hplan in H. simpl in H.
    destruct (currentExerciseIndex (session st) <? JS.length plan - 1) eqn:E;
      injection H as <-; simpl;
      apply (session_ok_update _ plan); auto; lia.
  - (* SkipForward *)
    unfold skipToNextExercise, currentWorkout in H. rewrite Hplan in H. simpl in H.
    destruct (currentExerciseIndex (session st) <? JS.length plan - 1) eqn:E;
      injection H as <-; simpl; [| exact Hinv0].
    apply (session_ok_update _ plan); auto; try lia; try discriminate.
  - (* SkipBackward *)
    unfold previousExercise.
    destruct (0 <? currentExerciseIndex (session st)) eqn:E; simpl; [| exact Hinv0].
    apply (session_ok_update _ plan); auto; try lia; try discriminate.
  - (* Purge *)
    apply (session_ok_initial INITIAL_CONFIG).
  - (* Tick *)
    destruct (restTimerEffect (session st)); try discriminate.
    injection H as <-. simpl.
    apply (session_ok_update _ plan); auto.
  - (* RestElapsed *)
    unfold restTimerEffect in H.
    destruct (isActive (session st) && isResting (session st)
              && (0 <? restTimeLeft (session st))%float); [discriminate |].
    destruct ((restTimeLeft (session st) =? 0)%float && isResting (session st))
      eqn:E; [| discriminate].
    injection H as <-. simpl. apply andb_true_iff in E. destruct E as [_ Er].
    specialize (Hrest Er).
    apply (session_ok_update _ plan); auto; try lia; try discriminate.
Qed.

Lemma reachable_session_ok (st : App) :
  reachable catalog st -> session_ok catalog (session st).
Proof.
  induction 1 as [u c stored | st ev st' _ IH Hstep].
  - apply session_ok_initial.
  - exact (handle_preserves ev st st' IH Hstep).
Qed.

End Invariant.

(** ** The ledger *)

Lemma recordCompletion_In (day : Z) (prev : list Z) (x : Z) :
  In x (recordCompletion day prev) <-> In x prev \/ x = day.
Proof.
  unfold recordCompletion. rewrite Set_spread_In, in_app_iff. simpl.
  intuition congruence.
Qed.

Lemma recordCompletion_NoDup (day : Z) (prev : list Z) :
  NoDup (recordCompletion day prev).
Proof. apply Set_spread_NoDup. Qed.

Lemma recordCompletion_present (day : Z) (prev : list Z) :
  NoDup prev -> In day prev -> recordCompletion day prev = prev.
Proof.
  intros Hnd Hin. unfold recordCompletion.
  rewrite Set_spread_snoc, (Set_spread_fixed prev Hnd).
  unfold JS.Set_add. apply includes_In in Hin. now rewrite Hin.
Qed.

(** C8. Recording the completion of a day is idempotent: recording [d]
    twice gives the ledger that recording it once gives (so the same
    size and the same members), and re-adding a day that a ledger of
    distinct days already holds changes nothing. *)
Theorem recordCompletion_idempotent (L : list Z) (d : Z) :
  recordCompletion d (recordCompletion d L) = recordCompletion d L
  /\ JS.length (recordCompletion d (recordCompletion d L))
     = JS.length (recordCompletion d L)
  /\ (forall x, In x (recordCompletion d (recordCompletion d L))
                <-> In x (recordCompletion d L))
  /\ (NoDup L -> In d L -> recordCompletion d L = L).
Proof.
  assert (E : recordCompletion d (recordCompletion d L) = recordCompletion d L).
  { apply recordCompletion_present.
    - apply recordCompletion_NoDup.
    - apply recordCompletion_In. now right. }
  split; [exact E |]. rewrite E.
  split; [reflexivity |]. split; [tauto |].
  apply recordCompletion_present.
Qed.

(** ** Transitions of a session *)

Lemma previousExercise_at_first (st : App) :
  currentExerciseIndex (session st) = 0 -> previousExercise st = st.
Proof. intros H. unfold previousExercise. now rewrite H. Qed.

Section Transitions.

Variable catalog : list Exercise.

Lemma skipToNextExercise_at_last (st : App) (plan : list PlanItem) :
  currentWorkout catalog st = Some plan ->
  currentExerciseIndex (session st) = JS.length plan - 1 ->
  skipToNextExercise catalog st = Some st.
Proof.
  intros Hp Hi. unfold skipToNextExercise. rewrite Hp. simpl.
  assert (E : (currentExerciseIndex (session st) <? JS.length plan - 1) = false)
    by (apply Z.ltb_ge; lia).
  now rewrite E.
Qed.

Lemma nextExercise_last (st : App) (plan : list PlanItem) (now now' : Z) :
  currentWorkout catalog st = Some plan ->
  currentExerciseIndex (session st) = JS.length plan - 1 ->
  nextExercise catalog now now' st
  = Some (mkApp (userData st) (config st)
                (recordCompletion (currentDay (session st)) (completedDays st))
                summary
                (Some (mkStats (JS.Math_round (nominalCalories st plan))
                               ((now - startOr (startTime (session st)) now') / 60000)))
                (mkSession false (currentDay (session st))
                           (currentExerciseIndex (session st))
                           (isResting (session st)) (restTimeLeft (session st))
                           (startTime (session st)) (focusCategory (session st)))).
Proof.
  intros Hp Hi. unfold nextExercise. rewrite Hp. simpl.
  assert (E : (currentExerciseIndex (session st) <? JS.length plan - 1) = false)
    by (apply Z.ltb_ge; lia).
  rewrite E. reflexivity.
Qed.


(** C10. The terminal completion changes the session only in its
    active flag: day, exercise index, rest flag, rest seconds, start
    time and focus category are what they were, so the summary screen,
    which is the view shown next, still reads the day just completed. *)
Theorem nextExercise_completion_frame (st : App) (plan : list PlanItem) (now now' : Z) :
  currentWorkout catalog st = Some plan ->
  currentExerciseIndex (session st) = JS.length plan - 1 ->
  exists st',
    nextExercise catalog now now' st = Some st'
    /\ session st'
       = mkSession false (currentDay (session st))
                   (currentExerciseIndex (session st))
                   (isResting (session st)) (restTimeLeft (session st))
                   (startTime (session st)) (focusCategory (session st))
    /\ view st' = summary
    /\ In (currentDay (session st')) (completedDays st').
Proof.
  intros Hp Hi. eexists.
  split; [apply (nextExercise_last st plan now now' Hp Hi) |].
  simpl. repeat split. apply recordCompletion_In. now right.
Qed.

Lemma nextExercise_not_last (st : App) (plan : list PlanItem) (now now' : Z) :
  currentWorkout catalog st = Some plan ->
  currentExerciseIndex (session st) < JS.length plan - 1 ->
  nextExercise catalog now now' st
  = Some (setSession (fun prev =>
            mkSession (isActive prev) (currentDay prev) (currentExerciseIndex prev)
                      true (restDuration (config st))
                      (startTime prev) (focusCategory prev)) st).
Proof.
  intros Hp Hi. unfold nextExercise. rewrite Hp. simpl.
  apply Z.ltb_lt in Hi. now rewrite Hi.
Qed.

(** Whatever the event, a transition that ends in the resting state has
    not moved the exercise pointer. *)
Lemma resting_keeps_index (ev : Event) (st st' : App) :
  handle catalog ev st = Some st' ->
  isResting (session st') = true ->
  currentExerciseIndex (session st') = currentExerciseIndex (session st).
Proof.
  intros H Hr. unfold handle in H.
  apply bind_Some in H. destruct H as [plan [Hplan H]].
  destruct ev; guards; subst; simpl in *; try reflexivity; try discriminate.
  - (* Complete *)
    unfold nextExercise in H. rewrite Hplan in H. simpl in H.
    destruct (currentExerciseIndex (session st) <? JS.length plan - 1);
      injection H as <-; reflexivity.
  - (* SkipForward *)
    unfold skipToNextExercise in H. rewrite Hplan in H. simpl in H.
    destruct (currentExerciseIndex (session st) <? JS.length plan - 1);
      injection H as <-; [discriminate Hr | reflexivity].
  - (* SkipBackward *)
    unfold previousExercise in *.
    destruct (0 <? currentExerciseIndex (session st));
      [discriminate Hr | reflexivity].
  - (* Tick *)
    destruct (restTimerEffect (session st)); try discriminate.
    injection H as <-. reflexivity.
  - (* RestElapsed *)
    unfold restTimerEffect in H.
    destruct (isActive (session st) && isResting (session st)
              && (0 <? restTimeLeft (session st))%float); [discriminate |].
    destruct ((restTimeLeft (session st) =? 0)%float && isResting (session st));
      [| discriminate].
    injection H as <-. discriminate Hr.
Qed.

(** C7. On an exercise that is not the last one, completing it starts
    the rest: [isResting] becomes true, [restTimeLeft] the configured rest
    duration, and the exercise index stays.  No transition of the
    component both ends in the resting state and changes the index. *)
Theorem nextExercise_starts_rest (st : App) (plan : list PlanItem) (now now' : Z) :
  isActive (session st) = true ->
  currentWorkout catalog st = Some plan ->
  currentExerciseIndex (session st) < JS.length plan - 1 ->
  (exists st',
      nextExercise catalog now now' st = Some st'
      /\ isResting (session st') = true
      /\ restTimeLeft (session st') = restDuration (config st)
      /\ currentExerciseIndex (session st') = currentExerciseIndex (session st))
  /\ (forall ev a b,
         handle catalog ev a = Some b ->
         isResting (session a) = false -> isResting (session b) = true ->
         currentExerciseIndex (session b) = currentExerciseIndex (session a)).
Proof.
  intros _ Hp Hi. split.
  - eexists. split; [apply (nextExercise_not_last st plan now now' Hp Hi) |].
    simpl. repeat split.
  - intros ev a b H _ Hr. exact (resting_keeps_index ev a b H Hr).
Qed.

End Transitions.

(** ** The rest timer *)

Section RestTimer.

Variable catalog : list Exercise.

(** C5. An active, resting session with one second of rest left and a
    next exercise to go to: the interval callback brings [restTimeLeft]
    to 0, and the effect that runs on the resulting state then leaves
    the rest on its own, with [isResting] false and the exercise index
    one higher. *)
Theorem rest_elapses (st : App) (plan : list PlanItem) :
  isActive (session st) = true ->
  isResting (session st) = true ->
  restTimeLeft (session st) = 1%float ->
  currentWorkout catalog st = Some plan ->
  currentExerciseIndex (session st) < JS.length plan - 1 ->
  exists st1 st2,
    handle catalog Tick st = Some st1
    /\ restTimeLeft (session st1) = 0%float
    /\ isResting (session st1) = true
    /\ currentExerciseIndex (session st1) = currentExerciseIndex (session st)
    /\ handle catalog Tick st1 = None
    /\ handle catalog RestElapsed st1 = Some st2
    /\ isResting (session st2) = false
    /\ currentExerciseIndex (session st2) = currentExerciseIndex (session st) + 1.
Proof.
  intros Ha Hr Ht Hp _.
  exists (tick st).
  exists (setSession (fun s =>
            mkSession (isActive s) (currentDay s) (currentExerciseIndex s + 1)
                      false (restTimeLeft s) (startTime s) (focusCategory s))
            (tick st)).
  assert (Hp1 : currentWorkout catalog (tick st) = Some plan) by exact Hp.
  assert (Ht1 : restTimeLeft (session (tick st)) = 0%float)
    by (simpl; rewrite Ht; reflexivity).
  assert (He : restTimerEffect (session st) = TimerArmed)
    by (unfold restTimerEffect; rewrite Ha, Hr, Ht; reflexivity).
  assert (He1 : restTimerEffect (session (tick st))
                = Advanced (mkSession (isActive (session st)) (currentDay (session st))
                                      (currentExerciseIndex (session st) + 1) false
                                      (restTimeLeft (session (tick st)))
                                      (startTime (session st))
                                      (focusCategory (session st)))).
  { unfold restTimerEffect. rewrite Ht1. simpl. rewrite Ha, Hr. reflexivity. }
  unfold handle. rewrite Hp, Hp1. cbn [bind]. rewrite He, He1.
  repeat split; try assumption.
Qed.

End RestTimer.

(** ** The exercise pointer *)

Section Pointer.

Variable catalog : list Exercise.
Hypothesis Hok : catalog_ok catalog = true.

(** C6. In every reachable state the exercise index points into the
    current plan; going back from index 0 and skipping forward from the
    last index leave the whole state as it is. *)
Theorem exerciseIndex_in_bounds (st : App) :
  reachable catalog st ->
  exists plan,
    currentWorkout catalog st = Some plan
    /\ 0 <= currentExerciseIndex (session st) < JS.length plan
    /\ (currentExerciseIndex (session st) = 0 -> previousExercise st = st)
    /\ (currentExerciseIndex (session st) = JS.length plan - 1 ->
        skipToNextExercise catalog st = Some st).
Proof.
  intros Hreach.
  destruct (reachable_session_ok catalog Hok st Hreach)
    as [_ [_ [plan [Hp [Hidx _]]]]].
  exists plan. split; [exact Hp |]. split; [exact Hidx |]. split.
  - apply previousExercise_at_first.
  - apply (skipToNextExercise_at_last catalog st plan Hp).
Qed.

End Pointer.

(** ** Leaving a workout *)

(** On the exercise screen the rest effect does nothing: no interval is
    armed and nothing advances. *)
Lemma restTimerEffect_exercising (st : App) :
  onExerciseScreen st = true -> restTimerEffect (session st) = NoEffect.
Proof.
  unfold onExerciseScreen. rewrite andb_true_iff, negb_true_iff.
  intros [_ H]. unfold restTimerEffect. rewrite H.
  now rewrite !andb_false_r.
Qed.

Section Leaving.

Variable catalog : list Exercise.

(** C1 (as the code has it). ABORT only navigates: the session record,
    its active flag included, and the ledger are what they were, and the
    view is the dashboard.  The button is on the exercise screen only,
    so after it neither the interval callback nor the advancing branch
    of the rest effect is enabled. *)
Theorem abort_only_navigates (st : App) :
  session (abort st) = session st
  /\ completedDays (abort st) = completedDays st
  /\ view (abort st) = dashboard
  /\ (forall st', handle catalog Abort st = Some st' ->
        st' = abort st
        /\ handle catalog Tick st' = None
        /\ handle catalog RestElapsed st' = None).
Proof.
  repeat split; unfold handle in *; guards; subst; try reflexivity;
    match goal with
    | Hp : currentWorkout _ st = Some _, Hs : onExerciseScreen st = true |- _ =>
        change (currentWorkout catalog (abort st))
          with (currentWorkout catalog st);
        rewrite Hp; cbn [bind];
        change (session (abort st)) with (session st);
        now rewrite (restTimerEffect_exercising st Hs)
    end.
Qed.

End Leaving.

(** ** Phases and the Training Matrix *)

Lemma interval_In (a : Z) (n : nat) (d : Z) :
  In d (interval a n) <-> a <= d < a + Z.of_nat n.
Proof.
  unfold interval. rewrite in_map_iff. split.
  - intros [k [<- Hk]]. apply in_seq in Hk. lia.
  - intros H. exists (Z.to_nat (d - a)). split; [lia |]. apply in_seq. lia.
Qed.

Lemma interval_NoDup (a : Z) (n : nat) : NoDup (interval a n).
Proof.
  unfold interval. apply Finite.Injective_map_NoDup; [| apply seq_NoDup].
  intros x y H. lia.
Qed.

Lemma interval_length (a : Z) (n : nat) : JS.length (interval a n) = Z.of_nat n.
Proof. unfold JS.length, interval. now rewrite length_map, length_seq. Qed.

(** A duplicate-free array whose members are exactly the days [a..b]
    has [b - a + 1] elements. *)
Lemma length_exact (l : list Z) (a b : Z) :
  a <= b + 1 -> NoDup l -> (forall d, In d l <-> a <= d <= b) ->
  JS.length l = b - a + 1.
Proof.
  intros Hab Hnd Hmem.
  assert (P : Permutation l (interval a (Z.to_nat (b - a + 1)))).
  { apply NoDup_Permutation; [assumption | apply interval_NoDup |].
    intros d. rewrite Hmem, interval_In. lia. }
  unfold JS.length. rewrite (Permutation_length P).
  fold (JS.length (interval a (Z.to_nat (b - a + 1)))).
  rewrite interval_length. lia.
Qed.

(** A duplicate-free array of days between 1 and [m] has at most [m]
    elements. *)
Lemma length_bounded (l : list Z) (m : Z) :
  0 <= m -> NoDup l -> (forall d, In d l -> 1 <= d <= m) -> JS.length l <= m.
Proof.
  intros Hm Hnd Hmem.
  assert (Hincl : incl l (interval 1 (Z.to_nat m))).
  { intros d Hd. apply interval_In. specialize (Hmem d Hd). lia. }
  pose proof (NoDup_incl_length Hnd Hincl) as Hlen.
  unfold interval in Hlen. rewrite length_map, length_seq in Hlen.
  unfold JS.length. lia.
Qed.

Lemma nextAvailableDay_max (completedDays : list Z) :
  completedDays <> [] ->
  In (nextAvailableDay completedDays - 1) completedDays
  /\ forall d, In d completedDays -> d <= nextAvailableDay completedDays - 1.
Proof.
  destruct completedDays as [| x arr]; [congruence |]. intros _.
  unfold nextAvailableDay. replace (JS.Math_max x arr + 1 - 1) with (JS.Math_max x arr) by lia.
  split; [apply Math_max_In |].
  destruct (Math_max_upper x arr) as [H1 H2].
  intros d [<- | Hd]; auto.
Qed.

Lemma locked_iff (completedDays : list Z) (day : Z) :
  locked completedDays day = true
  <-> ~ In day completedDays
      /\ day <> nextAvailableDay completedDays
      /\ JS.length completedDays + 1 < day.
Proof.
  unfold locked, isDone, isNext.
  rewrite !andb_true_iff, !negb_true_iff, includes_false, Z.eqb_neq, Z.ltb_lt.
  tauto.
Qed.

(** C2 (as the code has it). The grid's next day is [max(ledger) + 1],
    or 1 for an empty ledger.  The LOCKED overlay is on day [d] exactly
    when [d] is not completed, is not that next day, and
    [d > |ledger| + 1].  For a ledger of distinct days >= 1 every day
    beyond the next one is locked, and when the ledger is exactly
    [{1..n}] the locked days are exactly those beyond the next one. *)
Theorem locked_overlay (completedDays : list Z) (d : Z) :
  (completedDays = [] -> nextAvailableDay completedDays = 1)
  /\ (completedDays <> [] ->
      In (nextAvailableDay completedDays - 1) completedDays
      /\ forall x, In x completedDays -> x <= nextAvailableDay completedDays - 1)
  /\ (locked completedDays d = true
      <-> ~ In d completedDays
          /\ d <> nextAvailableDay completedDays
          /\ JS.length completedDays + 1 < d)
  /\ (NoDup completedDays -> (forall x, In x completedDays -> 1 <= x) ->
      nextAvailableDay completedDays < d -> locked completedDays d = true)
  /\ (forall n, 0 <= n -> NoDup completedDays ->
        (forall x, In x completedDays <-> 1 <= x <= n) ->
        (locked completedDays d = true <-> nextAvailableDay completedDays < d)).
Proof.
  split; [now intros -> |].
  split; [apply nextAvailableDay_max |].
  split; [apply locked_iff |].
  split.
  - intros Hnd Hpos Hd. apply locked_iff.
    destruct completedDays as [| x arr] eqn:E.
    + unfold nextAvailableDay in Hd. unfold JS.length. simpl. repeat split; auto; lia.
    + rewrite <- E in *.
      assert (Hne : completedDays <> []) by (rewrite E; discriminate).
      destruct (nextAvailableDay_max completedDays Hne) as [Hin Hmax].
      assert (Hlen : JS.length completedDays <= nextAvailableDay completedDays - 1).
      { apply length_bounded; [specialize (Hpos _ Hin); lia | assumption |].
        intros y Hy. split; [now apply Hpos | now apply Hmax]. }
      repeat split; try lia. intros Hc. specialize (Hmax d Hc). lia.
  - intros n Hn Hnd Hmem. rewrite locked_iff.
    assert (Hlen : JS.length completedDays = n).
    { rewrite (length_exact completedDays 1 n); [lia | lia | assumption | assumption]. }
    assert (Hnext : nextAvailableDay completedDays = n + 1).
    { destruct completedDays as [| x arr] eqn:E.
      - unfold JS.length in Hlen. simpl in Hlen. subst n. reflexivity.
      - rewrite <- E in *.
        assert (Hne : completedDays <> []) by (rewrite E; discriminate).
        destruct (nextAvailableDay_max completedDays Hne) as [Hin Hmax].
        apply Hmem in Hin.
        assert (Hn1 : 1 <= n) by lia.
        assert (Hnin : In n completedDays) by (apply Hmem; lia).
        specialize (Hmax n Hnin). lia. }
    rewrite Hlen, Hnext. split; [lia |].
    intros Hd. repeat split; try lia. intros Hc. apply Hmem in Hc. lia.
Qed.

(** For the ledger [{1..n}] the phase is [n / 30 + 1] and the progress
    within it is [n mod 30]. *)
Lemma phase_of_initial_segment (completedDays : list Z) (n : Z) :
  0 <= n -> NoDup completedDays ->
  (forall d, In d completedDays <-> 1 <= d <= n) ->
  currentPhase completedDays = n / 30 + 1
  /\ phaseProgress completedDays = n mod 30.
Proof.
  intros Hn Hnd Hmem.
  assert (Hlen : JS.length completedDays = n).
  { rewrite (length_exact completedDays 1 n); [lia | lia | assumption | assumption]. }
  assert (Hphase : currentPhase completedDays = n / 30 + 1)
    by (unfold currentPhase; now rewrite Hlen).
  split; [exact Hphase |].
  unfold phaseProgress, phaseDayOffset. rewrite Hphase.
  replace ((n / 30 + 1 - 1) * 30) with (30 * (n / 30)) by lia.
  pose proof (Z.div_mod n 30 ltac:(lia)) as Hdm.
  pose proof (Z.mod_pos_bound n 30 ltac:(lia)) as Hmb.
  rewrite (length_exact _ (30 * (n / 30) + 1) n).
  - lia.
  - lia.
  - apply NoDup_filter, Hnd.
  - intros d. rewrite filter_In, Hmem, andb_true_iff, Z.ltb_lt, Z.leb_le. lia.
Qed.

(** C9. The phase is [floor(|ledger| / 30) + 1], its first day follows
    [(phase - 1) * 30], and the progress counts the completed days [d]
    with [phaseStart < d <= phaseStart + 30]; for the ledger [{1..35}]
    the phase is 2 and the progress 5. *)
Theorem phase_values (completedDays : list Z) :
  currentPhase completedDays = JS.length completedDays / 30 + 1
  /\ phaseDayOffset completedDays = (currentPhase completedDays - 1) * 30
  /\ phaseProgress completedDays
     = JS.length (filter (fun d => (phaseDayOffset completedDays <? d)
                                   && (d <=? phaseDayOffset completedDays + 30))
                         completedDays)
  /\ (NoDup completedDays -> (forall d, In d completedDays <-> 1 <= d <= 35) ->
      currentPhase completedDays = 2 /\ phaseProgress completedDays = 5).
Proof.
  repeat split; try reflexivity;
    destruct (phase_of_initial_segment completedDays 35) as [H1 H2];
    try assumption; try lia.
Qed.

(** * The two catalogs, and concrete runs *)

Lemma reachable_run (catalog : list Exercise) (evs : list Event) (st st' : App) :
  reachable catalog st -> run catalog evs st = Some st' -> reachable catalog st'.
Proof.
  revert st. induction evs as [| ev evs IH]; intros st Hr H; simpl in H.
  - injection H as <-. exact Hr.
  - apply bind_Some in H. destruct H as [st1 [H1 H]].
    apply (IH st1); [| exact H]. exact (reachable_step catalog st ev st1 Hr H1).
Qed.

Lemma EXERCISES_ok : catalog_ok EXERCISES = true.
Proof. reflexivity. Qed.

Lemma EXERCISES_src_ok : catalog_ok EXERCISES_src = true.
Proof. reflexivity. Qed.

Example day1_plan : getWorkoutForDay EXERCISES 1 None = Some day1Plan.
Proof. reflexivity. Qed.

Example day1_plan_src : getWorkoutForDay EXERCISES_src 1 None = Some day1Plan.
Proof. reflexivity. Qed.

(** Day 11: intensity 1.5, so ten base repetitions become fifteen. *)
Example day11_intensity :
  intensity 11 = 1.5%float
  /\ option_map (map reps) (getWorkoutForDay EXERCISES 11 None)
     = Some [12; 18; 18; 45; 15]%float.
Proof. split; reflexivity. Qed.

(** A focus category gives that category's exercises in catalog order. *)
Example day1_focus_Back :
  option_map (map (fun item : PlanItem => (id item, reps item)))
             (getWorkoutForDay EXERCISES 1 (Some "Back"))
  = Some [("e12", 12); ("e13", 15); ("e22", 12); ("e23", 10)]%float.
Proof. reflexivity. Qed.

(** The repetition target is a binary64 computation.  On day 319 Hammer
    Curls (15 base repetitions) are scaled by 16.9: the product computed
    in binary64 lies just below 253.5 and rounds to 253, where the product
    of the decimal numbers, 253.5, would round to 254. *)
Example day319_reps :
  option_map (map (fun item : PlanItem => (id item, reps item)))
             (getWorkoutForDay EXERCISES 319 None)
  = Some [("e15", 253); ("e17", 253); ("e19", 203); ("e21", 507); ("e23", 169)]%float
  /\ (15 * (319 + 19) + 10) / 20 = 254.
Proof. split; reflexivity. Qed.

(** Day 1 done from start to finish, two minutes and five seconds later:
    the ledger is [{1}], the summary shows 32 kcal and 2 minutes. *)
Example day1_completed :
  exists st,
    run EXERCISES
        [ SelectDay 0 1700000000000;
          Complete 0 0; SkipRecovery; RestElapsed;
          Complete 0 0; SkipRecovery; RestElapsed;
          Complete 0 0; SkipRecovery; RestElapsed;
          Complete 0 0; SkipRecovery; RestElapsed;
          Complete 1700000125000 1700000125000 ] freshApp = Some st
    /\ completedDays st = [1]
    /\ lastStats st = Some (mkStats 32 2)
    /\ view st = summary
    /\ isActive (session st) = false.
Proof. eexists. split; [vm_compute; reflexivity |]. repeat split. Qed.

Example phase_of_35_days :
  currentPhase (interval 1 35) = 2 /\ phaseProgress (interval 1 35) = 5.
Proof. split; reflexivity. Qed.

(** ** The theorems at concrete sessions *)

Lemma midSession_reachable : reachable EXERCISES midSession.
Proof.
  apply (reachable_step EXERCISES freshApp (SelectDay 0 1700000000000)).
  - apply reachable_init.
  - reflexivity.
Defined.



Lemma nextExercise_completion_frame_day1 :
  exists st',
    nextExercise EXERCISES 1700000125000 1700000125000 lastExercise = Some st'
    /\ session st'
       = mkSession false 1 4 false 30 (Some 1700000000000) None
    /\ view st' = summary
    /\ In (currentDay (session st')) (completedDays st').
Proof.
  apply (nextExercise_completion_frame EXERCISES lastExercise day1Plan
           1700000125000 1700000125000).
  - reflexivity.
  - reflexivity.
Defined.

Lemma nextExercise_starts_rest_day1 :
  exists st',
    nextExercise EXERCISES 1700000030000 1700000030000 midSession = Some st'
    /\ isResting (session st') = true
    /\ restTimeLeft (session st') = restDuration (config midSession)
    /\ currentExerciseIndex (session st') = currentExerciseIndex (session midSession).
Proof.
  apply (nextExercise_starts_rest EXERCISES midSession day1Plan
           1700000030000 1700000030000).
  - reflexivity.
  - reflexivity.
  - reflexivity.
Defined.

Lemma rest_elapses_day1 :
  exists st1 st2,
    handle EXERCISES Tick lastRestSecond = Some st1
    /\ restTimeLeft (session st1) = 0%float
    /\ isResting (session st1) = true
    /\ currentExerciseIndex (session st1) = currentExerciseIndex (session lastRestSecond)
    /\ handle EXERCISES Tick st1 = None
    /\ handle EXERCISES RestElapsed st1 = Some st2
    /\ isResting (session st2) = false
    /\ currentExerciseIndex (session st2)
       = currentExerciseIndex (session lastRestSecond) + 1.
Proof.
  apply (rest_elapses EXERCISES lastRestSecond day1Plan).
  - reflexivity.
  - reflexivity.
  - reflexivity.
  - reflexivity.
  - reflexivity.
Defined.

Lemma exerciseIndex_in_bounds_day1 :
  exists plan,
    currentWorkout EXERCISES midSession = Some plan
    /\ 0 <= currentExerciseIndex (session midSession) < JS.length plan
    /\ (currentExerciseIndex (session midSession) = 0 ->
        previousExercise midSession = midSession)
    /\ (currentExerciseIndex (session midSession) = JS.length plan - 1 ->
        skipToNextExercise EXERCISES midSession = Some midSession).
Proof.
  apply (exerciseIndex_in_bounds EXERCISES).
  - reflexivity.
  - exact midSession_reachable.
Defined.

(** ** Where the code departs from two sentences of the specification *)

(** ABORT on a running session: the session is still active afterwards. *)
Lemma abort_keeps_session_active :
  reachable EXERCISES midSession
  /\ isActive (session midSession) = true
  /\ handle EXERCISES Abort midSession = Some (abort midSession)
  /\ isActive (session (abort midSession)) = true
  /\ ~ (isActive (session (abort midSession)) = false
        /\ completedDays (abort midSession) = completedDays midSession).
Proof.
  split; [exact midSession_reachable |].
  repeat split. intros [H _]. discriminate H.
Qed.

(** Only day 5 is completed (it was picked from the grid and done first).
    The next day is then 6, yet day 3 of the grid carries the LOCKED
    overlay although it does not exceed the next day. *)
Lemma locked_below_next_day :
  (exists st,
      run EXERCISES
          [ SelectDay 4 1700000000000;
            SkipForward; SkipForward; SkipForward; SkipForward;
            Complete 1700000125000 1700000125000 ] freshApp = Some st
      /\ completedDays st = [5])
  /\ In 3 (trainingMatrix [5])
  /\ nextAvailableDay [5] = 6
  /\ locked [5] 3 = true
  /\ ~ (locked [5] 3 = true <-> 3 > nextAvailableDay [5]).
Proof.
  split; [eexists; split; [vm_compute; reflexivity | reflexivity] |].
  split; [vm_compute; tauto |].
  split; [reflexivity |]. split; [reflexivity |].
  intros [H _]. specialize (H eq_refl). vm_compute in H. discriminate H.
Qed.

(** * Further properties of the component *)

(** ** Plans with and without a focus category *)

Lemma index_Some_bounds {A} (l : list A) (i : Z) (a : A) :
  JS.index l i = Some a -> 0 <= i < JS.length l.
Proof.
  unfold JS.index. intros H. destruct (i <? 0) eqn:E; [discriminate |].
  assert (Hn : nth_error l (Z.to_nat i) <> None) by congruence.
  apply nth_error_Some in Hn. unfold JS.length. lia.
Qed.

Lemma index_in_range {A} (l : list A) (i : Z) :
  0 <= i < JS.length l -> exists a, JS.index l i = Some a.
Proof.
  intros H. unfold JS.index. destruct (i <? 0) eqn:E; [lia |].
  destruct (nth_error l (Z.to_nat i)) as [a |] eqn:En; [now exists a |].
  apply nth_error_None in En. unfold JS.length in H. lia.
Qed.

Lemma Forall2_left_total {A B} (R : A -> B -> Prop) (l : list A) (r : list B) :
  Forall2 R l r -> forall a, In a l -> exists b, R a b.
Proof.
  induction 1 as [| x y l r Hxy _ IH]; intros a Ha; [contradiction |].
  destruct Ha as [<- | Ha]; [now exists y | now apply IH].
Qed.

(** X1. With a non-empty focus category the plan never throws, whatever
    the day: it is the category's exercises in catalog order (so it is
    empty for a category the catalog does not know), each scaled by the
    day's intensity.  An empty focus string is treated as no focus. *)
Theorem getWorkoutForDay_focus (catalog : list Exercise) (day : Z) (cat : string) :
  JS.truthy cat = true ->
  exists plan,
    getWorkoutForDay catalog day (Some cat) = Some plan
    /\ map exercise plan = inCategory catalog cat
    /\ Forall (fun item : PlanItem =>
                 category item = cat
                 /\ reps item
                    = JS.Math_round (JS.Z2F (baseReps item) * intensity day)%float) plan
    /\ (forall e, In e catalog -> category e = cat -> In e (map exercise plan))
    /\ getWorkoutForDay catalog day (Some "") = getWorkoutForDay catalog day None.
Proof.
  intros Ht. unfold getWorkoutForDay at 1. rewrite Ht.
  eexists. split; [reflexivity |].
  assert (Hmap : map exercise (map (scaled (intensity day)) (inCategory catalog cat))
                 = inCategory catalog cat).
  { rewrite map_map. simpl. apply map_id. }
  split; [exact Hmap |]. split; [| split].
  - apply Forall_forall. intros item Hin. apply in_map_iff in Hin.
    destruct Hin as [e [<- He]]. simpl.
    split; [now apply (inCategory_category catalog) | reflexivity].
  - intros e He Hc. rewrite Hmap. unfold inCategory. apply filter_In.
    split; [assumption | now apply String.eqb_eq].
  - reflexivity.
Qed.

(** X2. Without a focus category the generator returns a plan exactly
    when every category has an exercise and [day % length] is not
    negative for any of them; otherwise reading [base.baseReps] throws.
    A negative day is therefore accepted only when every category's size
    divides it. *)
Theorem getWorkoutForDay_rotation_defined (catalog : list Exercise) (day : Z) :
  (exists plan, getWorkoutForDay catalog day None = Some plan)
  <-> (forall cat, In cat CATEGORIES ->
         inCategory catalog cat <> []
         /\ 0 <= Z.rem day (JS.length (inCategory catalog cat))).
Proof.
  unfold getWorkoutForDay. split.
  - intros [plan Hp] cat Hin. apply mapM_Forall2 in Hp.
    destruct (Forall2_left_total _ _ _ Hp cat Hin) as [item Hi].
    cbv beta zeta in Hi. apply bind_Some in Hi. destruct Hi as [base [Hb _]].
    apply index_Some_bounds in Hb. split; [| lia].
    intros E. rewrite E in Hb. unfold JS.length in Hb. simpl in Hb. lia.
  - intros H. apply mapM_total. intros cat Hin.
    destruct (H cat Hin) as [Hne Hr]. cbv beta zeta.
    assert (Hlen : 0 < JS.length (inCategory catalog cat)).
    { unfold JS.length. destruct (inCategory catalog cat); [congruence | simpl; lia]. }
    destruct (index_in_range (inCategory catalog cat)
                (Z.rem day (JS.length (inCategory catalog cat)))) as [base Hb].
    { pose proof (Z.rem_bound_abs day (JS.length (inCategory catalog cat))
                    ltac:(lia)). lia. }
    rewrite Hb. simpl. eauto.
Qed.

Lemma pick_same_exercises (catalog : list Exercise) (d1 d2 : Z)
      (cats : list string) (p1 p2 : list PlanItem) :
  Forall2 (pick catalog d1) cats p1 ->
  Forall2 (pick catalog d2) cats p2 ->
  (forall cat, In cat cats ->
     d1 mod JS.length (inCategory catalog cat)
     = d2 mod JS.length (inCategory catalog cat)) ->
  map exercise p1 = map exercise p2.
Proof.
  intros H1. revert p2. induction H1 as [| cat i1 cats p1 [Hn1 _] _ IH];
    intros p2 H2 Hmod; inversion H2 as [| cat' i2 cats' p2' [Hn2 _] Hrest]; subst.
  - reflexivity.
  - simpl. f_equal.
    + rewrite (Hmod cat (or_introl eq_refl)) in Hn1. congruence.
    + apply IH; [assumption |]. intros c Hc. apply Hmod. now right.
Qed.

(** X3. The rotation is periodic: when [k >= 0] is a multiple of every
    category's size, day [day + k] selects the same exercises, in the same
    order, as day [day] (only the repetition targets differ). *)
Theorem rotation_periodic (catalog : list Exercise) (day k : Z) :
  catalog_ok catalog = true -> 0 <= day -> 0 <= k ->
  (forall cat, In cat CATEGORIES -> (JS.length (inCategory catalog cat) | k)) ->
  exists plan plan',
    getWorkoutForDay catalog day None = Some plan
    /\ getWorkoutForDay catalog (day + k) None = Some plan'
    /\ map exercise plan' = map exercise plan.
Proof.
  intros Hok Hd Hk Hdiv.
  destruct (rotation_plan catalog Hok day Hd) as [plan [Hp Hpick]].
  destruct (rotation_plan catalog Hok (day + k)) as [plan' [Hp' Hpick']]; [lia |].
  exists plan, plan'. split; [assumption |]. split; [assumption |].
  apply (pick_same_exercises catalog (day + k) day CATEGORIES); try assumption.
  intros cat Hin. destruct (Hdiv cat Hin) as [q ->].
  pose proof (inCategory_nonempty catalog Hok cat Hin).
  apply Z.mod_add. lia.
Qed.

(** ** Repetition targets in binary64 and in exact arithmetic *)

Lemma planExact_sound (catalog : list Exercise) (focus : option string) (day : Z) :
  planExact catalog focus day = true ->
  exists plan,
    getWorkoutForDay catalog day focus = Some plan
    /\ Forall (fun item : PlanItem =>
                 reps item = JS.Z2F (exactReps (baseReps item) day)) plan.
Proof.
  unfold planExact. destruct (getWorkoutForDay catalog day focus) as [plan |];
    [| discriminate].
  intros H. exists plan. split; [reflexivity |].
  apply Forall_forall. intros item Hin.
  rewrite forallb_forall in H. apply FloatAxioms.Leibniz.eqb_spec.
  exact (H item Hin).
Qed.

Lemma interval_forallb (f : Z -> bool) (a : Z) (n : nat) (d : Z) :
  forallb f (interval a n) = true -> a <= d < a + Z.of_nat n -> f d = true.
Proof.
  intros H Hd. rewrite forallb_forall in H. apply H, interval_In, Hd.
Qed.


(** X5. With a focus category, every target of the 23-exercise catalog
    is exactly rounded through day 21; on day 22 the Abs plan gives Plank
    and Mountain Climbers (30 base repetitions, factor 2.05) 61
    repetitions where exact rounding of 61.5 gives 62. *)
Theorem focus_reps_exact (day : Z) (cat : string) :
  1 <= day <= 21 -> In cat CATEGORIES ->
  (exists plan,
      getWorkoutForDay EXERCISES day (Some cat) = Some plan
      /\ Forall (fun item : PlanItem =>
                   reps item = JS.Z2F (exactReps (baseReps item) day)) plan)
  /\ option_map (map (fun item : PlanItem => (id item, reps item)))
                (getWorkoutForDay EXERCISES 22 (Some "Abs"))
     = Some [("e9", 41); ("e10", 61); ("e11", 25); ("e20", 41); ("e21", 61)]%float
  /\ exactReps 30 22 = 62.
Proof.
  intros Hd Hc. split; [| split; reflexivity].
  apply planExact_sound.
  assert (H : forallb (fun c => forallb (planExact EXERCISES (Some c)) (interval 1 21))
                      CATEGORIES = true) by (vm_compute; reflexivity).
  rewrite forallb_forall in H.
  apply (interval_forallb (planExact EXERCISES (Some cat)) 1 21); [| lia].
  exact (H cat Hc).
Qed.

(** ** [handle] as a relation *)

Lemma View_eqb_eq (a b : View) : View_eqb a b = true <-> a = b.
Proof. destruct a, b; simpl; split; congruence. Qed.

Lemma handle_Step (catalog : list Exercise) (ev : Event) (st st' : App) :
  handle catalog ev st = Some st' -> Step catalog ev st st'.
Proof.
  intros H. unfold handle in H.
  apply bind_Some in H. destruct H as [plan [Hplan H]].
  destruct ev; guards; subst;
    repeat match goal with
      | H : View_eqb _ _ = true |- _ => apply View_eqb_eq in H
      | H : (_ || _)%bool = true |- _ => apply orb_true_iff in H
      | H : negb _ = true |- _ => apply negb_true_iff in H
      | H : (_ <? _)%nat = true |- _ => apply Nat.ltb_lt in H
      end;
    try (constructor; auto; fail).
  - constructor.
    match goal with H : _ \/ _ |- _ =>
      destruct H; [left | right]; now apply View_eqb_eq end.
  - constructor; [assumption | now apply CATEGORIES_mem].
  - unfold nextExercise in H. rewrite Hplan in H. cbn [bind] in H.
    destruct (currentExerciseIndex (session st) <? JS.length plan - 1) eqn:E;
      injection H as <-.
    + apply (Step_Complete_rest catalog st plan); auto. lia.
    + apply (Step_Complete_done catalog st plan); auto. lia.
  - unfold skipToNextExercise in H. rewrite Hplan in H. cbn [bind] in H.
    destruct (currentExerciseIndex (session st) <? JS.length plan - 1) eqn:E;
      injection H as <-.
    + apply (Step_SkipForward catalog st plan); auto. lia.
    + apply (Step_SkipForward_last catalog st plan); auto. lia.
  - destruct (restTimerEffect (session st)) eqn:E; try discriminate.
    injection H as <-. now constructor.
  - destruct (restTimerEffect (session st)) eqn:E; try discriminate.
    injection H as <-.
    unfold restTimerEffect in E.
    destruct (isActive (session st) && isResting (session st)
              && (0 <? restTimeLeft (session st))%float) eqn:E1; [discriminate |].
    destruct ((restTimeLeft (session st) =? 0)%float && isResting (session st))
      eqn:E2; [| discriminate].
    injection E as <-. apply andb_true_iff in E2. destruct E2 as [E2 Er].
    replace (setSession _ st) with (advanced st) by reflexivity.
    constructor; [assumption |].
    unfold restTimerEffect. rewrite E1, E2, Er. reflexivity.
Qed.

(** ** What every screen can rely on *)

Lemma onExerciseScreen_true (st : App) :
  onExerciseScreen st = true <-> view st = workout /\ isResting (session st) = false.
Proof.
  unfold onExerciseScreen.
  now rewrite andb_true_iff, View_eqb_eq, negb_true_iff.
Qed.

Lemma onRestScreen_true (st : App) :
  onRestScreen st = true <-> view st = workout /\ isResting (session st) = true.
Proof. unfold onRestScreen. now rewrite andb_true_iff, View_eqb_eq. Qed.

Lemma navShown_true (v : View) :
  navShown v = true <-> v = dashboard \/ v = settings \/ v = progress.
Proof.
  destruct v; cbv; split; intros H; try discriminate; auto;
    destruct H as [H | [H | H]]; discriminate.
Qed.

Lemma restTimerEffect_armed (s : SessionState) :
  restTimerEffect s = TimerArmed ->
  isActive s = true /\ isResting s = true /\ (0 <? restTimeLeft s)%float = true.
Proof.
  unfold restTimerEffect.
  destruct (isActive s && isResting s && (0 <? restTimeLeft s)%float) eqn:E.
  - intros _. now rewrite !andb_true_iff in E.
  - destruct ((restTimeLeft s =? 0)%float && isResting s); discriminate.
Qed.

Lemma Step_screens_ok (catalog : list Exercise) (ev : Event) (st st' : App) :
  screens_ok st -> Step catalog ev st st' -> screens_ok st'.
Proof.
  intros [Hs [Hw [Hr Ho]]] H.
  destruct H; unfold screens_ok; simpl;
    repeat match goal with
      | H : onExerciseScreen _ = true |- _ =>
          apply onExerciseScreen_true in H; destruct H
      | H : onRestScreen _ = true |- _ =>
          apply onRestScreen_true in H; destruct H
      | H : navShown _ = true |- _ => apply navShown_true in H
      | H : restTimerEffect _ = TimerArmed |- _ =>
          apply restTimerEffect_armed in H; destruct H as [? [? ?]]
      end;
    try (intuition (try congruence; try discriminate); fail).
  - (* the session has just been completed *)
    assert (In (currentDay (session st))
               (recordCompletion (currentDay (session st)) (completedDays st)))
      by (apply recordCompletion_In; now right).
    intuition (try congruence; try discriminate).
  - (* back one exercise *)
    unfold previousExercise.
    destruct (0 <? currentExerciseIndex (session st)); simpl;
      intuition (try congruence; try discriminate).
Qed.

Lemma initial_screens_ok (u : UserData.t) (c : WorkoutConfig) (stored : list Z) :
  screens_ok (initialApp u c stored).
Proof.
  unfold screens_ok, initialApp. simpl.
  destruct (UserData.onboarded u); intuition (try congruence; try discriminate).
Qed.

Lemma reachable_screens_ok (catalog : list Exercise) (st : App) :
  reachable catalog st -> screens_ok st.
Proof.
  induction 1 as [u c stored | st ev st' _ IH Hstep].
  - apply initial_screens_ok.
  - exact (Step_screens_ok catalog ev st st' IH (handle_Step catalog ev st st' Hstep)).
Qed.

Section Screens.

Variable catalog : list Exercise.

(** X6. Whenever the summary screen is shown there are statistics to
    display, the day in its headline is in the ledger, and the session is
    no longer active. *)
Theorem summary_screen_has_stats (st : App) :
  reachable catalog st -> view st = summary ->
  (exists stats, lastStats st = Some stats)
  /\ In (currentDay (session st)) (completedDays st)
  /\ isActive (session st) = false.
Proof.
  intros Hr Hv. destruct (reachable_screens_ok catalog st Hr) as [Hs _].
  destruct (Hs Hv) as [H1 [H2 H3]]. repeat split; try assumption.
  destruct (lastStats st) as [stats |]; [now exists stats | congruence].
Qed.

(** X7. Whenever the workout screen is shown the session is active and
    has a start time. *)
Theorem workout_screen_session_active (st : App) :
  reachable catalog st -> view st = workout ->
  isActive (session st) = true /\ exists t, startTime (session st) = Some t.
Proof.
  intros Hr Hv. destruct (reachable_screens_ok catalog st Hr) as [_ [Hw _]].
  destruct (Hw Hv) as [H1 H2]. split; [assumption |].
  destruct (startTime (session st)) as [t |]; [now exists t | congruence].
Qed.

(** X8. No rest runs in the background: away from the workout screen the
    session is not resting, so neither the interval callback nor the
    advancing branch of the effect can fire. *)
Theorem no_rest_off_workout_screen (st : App) :
  reachable catalog st -> view st <> workout ->
  isResting (session st) = false
  /\ handle catalog Tick st = None
  /\ handle catalog RestElapsed st = None.
Proof.
  intros Hr Hv. destruct (reachable_screens_ok catalog st Hr) as [_ [_ [Hrest _]]].
  assert (E : isResting (session st) = false).
  { destruct (isResting (session st)); [| reflexivity]. now destruct Hv; apply Hrest. }
  split; [exact E |].
  assert (N : restTimerEffect (session st) = NoEffect).
  { unfold restTimerEffect. rewrite E. now rewrite !andb_false_r. }
  unfold handle. destruct (currentWorkout catalog st); cbn [bind];
    [rewrite N |]; split; reflexivity.
Qed.

(** X9. The onboarding screen is shown exactly while the profile is not
    marked as onboarded. *)
Theorem onboarding_screen_iff (st : App) :
  reachable catalog st ->
  (view st = onboarding <-> UserData.onboarded (userData st) = false).
Proof.
  intros Hr. now destruct (reachable_screens_ok catalog st Hr) as [_ [_ [_ Ho]]].
Qed.

(** ** The ledger along a run *)

Lemma run_Step_invariant (P : App -> Prop) :
  (forall ev st st', P st -> Step catalog ev st st' -> P st') ->
  forall evs st st', P st -> run catalog evs st = Some st' -> P st'.
Proof.
  intros Hstep evs. induction evs as [| ev evs IH]; intros st st' HP H; simpl in H.
  - injection H as <-. exact HP.
  - apply bind_Some in H. destruct H as [st1 [H1 H]].
    apply (IH st1 st'); [| exact H].
    exact (Hstep ev st st1 HP (handle_Step catalog ev st st1 H1)).
Qed.

Lemma Step_ledger_ok (ev : Event) (st st' : App) :
  ledger_ok (completedDays st) /\ 1 <= currentDay (session st) ->
  Step catalog ev st st' ->
  ledger_ok (completedDays st') /\ 1 <= currentDay (session st').
Proof.
  intros [[Hnd Hpos] Hday] H.
  destruct H; simpl; try (split; [split |]; assumption).
  - split; [now split |]. pose proof (phaseDayOffset_nonneg (completedDays st)).
    unfold gridDay. lia.
  - split; [now split |]. unfold JS.length. lia.
  - split; [now split |]. unfold JS.length. lia.
  - split; [| assumption]. split; [apply recordCompletion_NoDup |].
    intros d Hd. apply recordCompletion_In in Hd. destruct Hd as [Hd | ->]; auto.
  - unfold previousExercise.
    destruct (0 <? currentExerciseIndex (session st)); simpl;
      (split; [split |]; assumption).
  - split; [split; [constructor | intros d []] | lia].
Qed.

(** X10. Started from a stored ledger of distinct days >= 1, the ledger
    holds distinct days >= 1 after any sequence of events. *)
Theorem ledger_stays_valid (u : UserData.t) (c : WorkoutConfig)
        (stored : list Z) (evs : list Event) (st : App) :
  ledger_ok stored ->
  run catalog evs (initialApp u c stored) = Some st ->
  ledger_ok (completedDays st).
Proof.
  intros Hok Hrun.
  apply (run_Step_invariant
           (fun st => ledger_ok (completedDays st) /\ 1 <= currentDay (session st))
           Step_ledger_ok evs (initialApp u c stored) st); [| exact Hrun].
  split; [exact Hok | simpl; lia].
Qed.

(** X11. The ledger is written in two places only: the completion of a
    plan's last exercise adds the session's day, and PURGE ALL DATA
    empties it.  No other event changes it, so short of a purge no
    completed day is ever lost and the streak grows by at most one. *)
Theorem ledger_written_only_on_completion (ev : Event) (st st' : App) :
  handle catalog ev st = Some st' ->
  (completedDays st' = completedDays st
   \/ (exists now now',
          ev = Complete now now'
          /\ view st' = summary
          /\ completedDays st'
             = recordCompletion (currentDay (session st)) (completedDays st))
   \/ (ev = Purge /\ completedDays st' = []))
  /\ (ev <> Purge ->
      incl (completedDays st) (completedDays st')
      /\ (NoDup (completedDays st) ->
          JS.length (completedDays st) <= JS.length (completedDays st')
          <= JS.length (completedDays st) + 1)).
Proof.
  intros H. apply handle_Step in H.
  assert (Hrec : forall d cd, incl cd (recordCompletion d cd)
                 /\ (NoDup cd -> JS.length cd <= JS.length (recordCompletion d cd)
                                 <= JS.length cd + 1)).
  { intros d cd. split.
    - intros x Hx. apply recordCompletion_In. now left.
    - intros Hnd. unfold recordCompletion.
      rewrite Set_spread_snoc, (Set_spread_fixed cd Hnd).
      unfold JS.Set_add, JS.length. destruct (JS.includes cd d); [lia |].
      rewrite length_app. simpl. lia. }
  destruct H; simpl;
    try (split; [left; reflexivity
                | intros _; split; [apply incl_refl | intros _; lia]]; fail).
  - split.
    + right. left. do 2 eexists. repeat split.
    + intros _. apply Hrec.
  - split.
    + left. unfold previousExercise.
      now destruct (0 <? currentExerciseIndex (session st)).
    + intros _. unfold previousExercise.
      destruct (0 <? currentExerciseIndex (session st)); simpl;
        (split; [apply incl_refl | intros _; lia]).
  - split; [right; right; split; reflexivity | congruence].
Qed.

End Screens.

(** ** From the relation back to [handle] *)

Lemma Step_handle (catalog : list Exercise) (ev : Event) (st st' : App) :
  Step catalog ev st st' ->
  (exists plan, currentWorkout catalog st = Some plan) ->
  handle catalog ev st = Some st'.
Proof.
  intros H [plan0 Hp].
  destruct H; unfold handle; rewrite Hp; cbn [bind];
    repeat match goal with
      | H : view _ = _ |- _ => rewrite H
      | H : onExerciseScreen _ = true |- _ => rewrite H
      | H : onRestScreen _ = true |- _ => rewrite H
      | H : navShown _ = true |- _ => rewrite H
      | H : is_nan _ = false |- _ => rewrite H
      | H : restTimerEffect _ = _ |- _ => rewrite H
      end; simpl; try reflexivity.
  - destruct H as [H | H]; rewrite H; reflexivity.
  - apply Nat.ltb_lt in H0. rewrite H0. reflexivity.
  - assert (E : existsb (String.eqb cat) CATEGORIES = true).
    { apply existsb_exists. exists cat. split; [assumption | apply String.eqb_refl]. }
    unfold CATEGORIES in E. simpl in E. rewrite E. reflexivity.
  - unfold nextExercise. rewrite H0. cbn [bind].
    apply Z.ltb_lt in H1. now rewrite H1.
  - unfold nextExercise. rewrite H0. cbn [bind].
    apply Z.ltb_ge in H1. now rewrite H1.
  - unfold skipToNextExercise. rewrite H0. cbn [bind].
    apply Z.ltb_lt in H1. now rewrite H1.
  - unfold skipToNextExercise. rewrite H0. cbn [bind].
    apply Z.ltb_ge in H1. now rewrite H1.
Qed.

(** ** Walking through a plan *)

Section Walk.

Variable catalog : list Exercise.

Lemma restTimerEffect_zero (s : SessionState) :
  isResting s = true -> restTimeLeft s = 0%float ->
  restTimerEffect s
  = Advanced (mkSession (isActive s) (currentDay s) (currentExerciseIndex s + 1)
                        false (restTimeLeft s) (startTime s) (focusCategory s)).
Proof.
  intros Hr Ht. unfold restTimerEffect. rewrite Hr, Ht. simpl.
  now rewrite andb_false_r.
Qed.

(** X12. SKIP RECOVERY ends the rest at once: it sets the remaining
    time to 0, which disables the interval callback and makes the effect
    advance to the next exercise on the exercise screen. *)
Theorem skipRecovery_advances (st : App) (plan : list PlanItem) :
  onRestScreen st = true -> currentWorkout catalog st = Some plan ->
  exists st1 st2,
    handle catalog SkipRecovery st = Some st1
    /\ restTimeLeft (session st1) = 0%float
    /\ handle catalog Tick st1 = None
    /\ handle catalog RestElapsed st1 = Some st2
    /\ onExerciseScreen st2 = true
    /\ currentExerciseIndex (session st2) = currentExerciseIndex (session st) + 1
    /\ completedDays st2 = completedDays st.
Proof.
  intros Hs Hp. pose proof Hs as Hs'. apply onRestScreen_true in Hs'.
  destruct Hs' as [Hv Hr].
  exists (skipRecovery st), (advanced (skipRecovery st)).
  assert (Hp1 : currentWorkout catalog (skipRecovery st) = Some plan) by exact Hp.
  assert (He : restTimerEffect (session (skipRecovery st))
               = Advanced (session (advanced (skipRecovery st))))
    by (apply restTimerEffect_zero; [exact Hr | reflexivity]).
  split; [apply Step_handle; [now constructor | now exists plan] |].
  split; [reflexivity |].
  split; [unfold handle; rewrite Hp1; cbn [bind]; now rewrite He |].
  split; [apply Step_handle; [constructor; assumption | now exists plan] |].
  split; [apply onExerciseScreen_true; split; [exact Hv | reflexivity] |].
  split; reflexivity.
Qed.

(** One exercise done, its rest skipped. *)
Lemma one_round (st : App) (plan : list PlanItem) (now : Z) (rest : list Event) :
  onExerciseScreen st = true -> currentWorkout catalog st = Some plan ->
  currentExerciseIndex (session st) < JS.length plan - 1 ->
  run catalog (Complete now now :: SkipRecovery :: RestElapsed :: rest) st
  = run catalog rest (advanced (skipRecovery (resting st))).
Proof.
  intros Hs Hp Hi. pose proof Hs as Hs'. apply onExerciseScreen_true in Hs'.
  destruct Hs' as [Hv Hr].
  assert (H1 : handle catalog (Complete now now) st = Some (resting st)).
  { apply Step_handle; [| now exists plan].
    now apply (Step_Complete_rest catalog st plan). }
  assert (Hrs : onRestScreen (resting st) = true)
    by (apply onRestScreen_true; split; [exact Hv | reflexivity]).
  destruct (skipRecovery_advances (resting st) plan Hrs Hp)
    as [st1 [st2 [H2 [_ [_ [H3 _]]]]]].
  assert (E1 : st1 = skipRecovery (resting st)).
  { assert (H2' : handle catalog SkipRecovery (resting st)
                  = Some (skipRecovery (resting st)))
      by (apply Step_handle; [now constructor | now exists plan]).
    congruence. }
  subst st1.
  assert (E2 : st2 = advanced (skipRecovery (resting st))).
  { apply handle_Step in H3. inversion H3. reflexivity. }
  subst st2.
  cbn [run]. rewrite H1. cbn [bind]. rewrite H2. cbn [bind]. rewrite H3.
  reflexivity.
Qed.

(** X13. From any exercise of a plan, completing each remaining exercise
    and skipping each rest ends on the summary screen with the session
    over and its day recorded; nothing else is added to the ledger. *)
Theorem finish_session (k : nat) (now : Z) (st : App) (plan : list PlanItem) :
  onExerciseScreen st = true -> currentWorkout catalog st = Some plan ->
  currentExerciseIndex (session st) + Z.of_nat k = JS.length plan - 1 ->
  exists st',
    run catalog (finishFrom k now) st = Some st'
    /\ view st' = summary
    /\ isActive (session st') = false
    /\ currentDay (session st') = currentDay (session st)
    /\ completedDays st'
       = recordCompletion (currentDay (session st)) (completedDays st).
Proof.
  revert st. induction k as [| k IH]; intros st Hs Hp Hi.
  - exists (completed now now plan st). split; [| repeat split].
    cbn [finishFrom run].
    assert (H : handle catalog (Complete now now) st = Some (completed now now plan st)).
    { apply Step_handle; [| now exists plan].
      apply (Step_Complete_done catalog st plan); auto. lia. }
    now rewrite H.
  - cbn [finishFrom]. rewrite (one_round st plan now _ Hs Hp) by lia.
    apply onExerciseScreen_true in Hs. destruct Hs as [Hv Hr].
    destruct (IH (advanced (skipRecovery (resting st)))) as [st' [H1 [H2 [H3 [H4 H5]]]]].
    + apply onExerciseScreen_true. split; [exact Hv | reflexivity].
    + exact Hp.
    + simpl. lia.
    + exists st'. repeat split; assumption.
Qed.

End Walk.

(** ** Resuming, and rests that cannot elapse *)

Lemma float_negative (x : float) :
  (x <? 0)%float = true ->
  (0 <? x)%float = false /\ (x =? 0)%float = false /\ is_nan x = false.
Proof.
  unfold is_nan. rewrite !ltb_spec, !eqb_spec.
  change (Prim2SF 0) with (S754_zero false).
  unfold SFltb, SFeqb.
  destruct (Prim2SF x) as [s | s | | s m e]; simpl; try discriminate;
    destruct s; try discriminate; intros _; repeat split.
  rewrite Z.compare_refl, Pos.compare_cont_refl. reflexivity.
Qed.

Section Edge.

Variable catalog : list Exercise.
Hypothesis Hok : catalog_ok catalog = true.



(** X15. The rest prompt accepts negative numbers.  With a negative rest
    duration, completing an exercise that is not the last one enters a
    rest that never elapses: no interval is armed and the effect does not
    advance.  SKIP RECOVERY still leads on to the next exercise. *)
Theorem negative_rest_is_stuck (st : App) (plan : list PlanItem) (r : float) (now : Z) :
  onExerciseScreen st = true -> currentWorkout catalog st = Some plan ->
  currentExerciseIndex (session st) < JS.length plan - 1 ->
  (r <? 0)%float = true ->
  exists st',
    run catalog [AdjustRest r; Complete now now] st = Some st'
    /\ onRestScreen st' = true
    /\ restTimeLeft (session st') = r
    /\ handle catalog Tick st' = None
    /\ handle catalog RestElapsed st' = None
    /\ exists st'',
         run catalog [SkipRecovery; RestElapsed] st' = Some st''
         /\ onExerciseScreen st'' = true
         /\ currentExerciseIndex (session st'')
            = currentExerciseIndex (session st) + 1.
Proof.
  intros Hs Hp Hi Hneg.
  destruct (float_negative r Hneg) as [Hpos [Hz Hnan]].
  pose proof Hs as Hs'. apply onExerciseScreen_true in Hs'. destruct Hs' as [Hv Hr].
  set (st1 := setConfig (fun p => mkConfig (sessionDuration p) r) st).
  assert (H1 : handle catalog (AdjustRest r) st = Some st1).
  { apply Step_handle; [now constructor | now exists plan]. }
  assert (H2 : handle catalog (Complete now now) st1 = Some (resting st1)).
  { apply Step_handle; [| now exists plan].
    now apply (Step_Complete_rest catalog st1 plan). }
  assert (Hrs : onRestScreen (resting st1) = true)
    by (apply onRestScreen_true; split; [exact Hv | reflexivity]).
  assert (Hp2 : currentWorkout catalog (resting st1) = Some plan) by exact Hp.
  assert (He : restTimerEffect (session (resting st1)) = NoEffect).
  { unfold restTimerEffect. simpl. rewrite Hpos, Hz. now rewrite andb_false_r. }
  exists (resting st1). cbn [run]. rewrite H1. cbn [bind]. rewrite H2. cbn [bind].
  split; [reflexivity |]. split; [exact Hrs |]. split; [reflexivity |].
  split; [unfold handle; rewrite Hp2; cbn [bind]; now rewrite He |].
  split; [unfold handle; rewrite Hp2; cbn [bind]; now rewrite He |].
  destruct (skipRecovery_advances catalog (resting st1) plan Hrs Hp2)
    as [sa [sb [Ha [_ [_ [Hb [Hc [Hd _]]]]]]]].
  exists sb. cbn [run]. rewrite Ha. cbn [bind]. rewrite Hb.
  split; [reflexivity |]. split; [exact Hc | exact Hd].
Qed.

(** X16. In every reachable state the exercise that the workout screen
    reads exists.  While resting, so does the exercise announced after
    "Next:", and it is the one shown when the rest is over. *)
Theorem announced_exercise_follows (st : App) :
  reachable catalog st ->
  (exists item, currentExercise catalog st = Some item)
  /\ (isResting (session st) = true ->
      exists item,
        announcedNext catalog st = Some item
        /\ forall st', handle catalog RestElapsed st = Some st' ->
                       currentExercise catalog st' = Some item).
Proof.
  intros Hr.
  destruct (reachable_session_ok catalog Hok st Hr) as [_ [_ [plan [Hp [Hidx Hrest]]]]].
  unfold currentExercise, announcedNext, currentWorkout. rewrite Hp. cbn [bind].
  split; [now apply index_in_range |].
  intros Hres. specialize (Hrest Hres).
  destruct (index_in_range plan (currentExerciseIndex (session st) + 1)) as [item Hi];
    [lia |].
  exists item. split; [exact Hi |].
  intros st' H. apply handle_Step in H. inversion H; subst. simpl.
  rewrite Hp. cbn [bind]. exact Hi.
Qed.

(** X17. In every reachable state each chevron of the workout screen is
    disabled exactly when its handler would leave the state as it is. *)
Theorem chevron_disabled_iff_noop (st : App) :
  reachable catalog st ->
  (backDisabled st = true <-> previousExercise st = st)
  /\ (forwardDisabled catalog st = Some true
      <-> skipToNextExercise catalog st = Some st).
Proof.
  intros Hr.
  destruct (reachable_session_ok catalog Hok st Hr) as [_ [_ [plan [Hp [Hidx _]]]]].
  unfold backDisabled, forwardDisabled, previousExercise, skipToNextExercise,
    currentWorkout.
  rewrite Hp. cbn [bind]. split.
  - destruct (currentExerciseIndex (session st) =? 0) eqn:E.
    + apply Z.eqb_eq in E. rewrite E. simpl. tauto.
    + apply Z.eqb_neq in E.
      assert (L : (0 <? currentExerciseIndex (session st)) = true)
        by (apply Z.ltb_lt; lia).
      rewrite L. split; [discriminate |].
      intros H. apply (f_equal (fun a => currentExerciseIndex (session a))) in H.
      simpl in H. lia.
  - destruct (currentExerciseIndex (session st) =? JS.length plan - 1) eqn:E.
    + apply Z.eqb_eq in E.
      assert (L : (currentExerciseIndex (session st) <? JS.length plan - 1) = false)
        by (apply Z.ltb_ge; lia).
      rewrite L. tauto.
    + apply Z.eqb_neq in E.
      assert (L : (currentExerciseIndex (session st) <? JS.length plan - 1) = true)
        by (apply Z.ltb_lt; lia).
      rewrite L. split; [discriminate |].
      intros H. injection H as H.
      apply (f_equal (fun a => currentExerciseIndex (session a))) in H.
      simpl in H. lia.
Qed.

End Edge.

(** ** The dashboard's days *)

Lemma ledger_within_max (completedDays : list Z) :
  ledger_ok completedDays -> completedDays <> [] ->
  incl completedDays (interval 1 (Z.to_nat (nextAvailableDay completedDays - 1)))
  /\ 1 <= nextAvailableDay completedDays - 1.
Proof.
  intros [Hnd Hpos] Hne.
  destruct (nextAvailableDay_max completedDays Hne) as [Hin Hmax].
  split; [| now apply Hpos].
  intros d Hd. apply interval_In. specialize (Hpos d Hd). specialize (Hmax d Hd). lia.
Qed.

(** X18. For a ledger of distinct days >= 1: the day highlighted as next
    is never a completed one; the day RESUME SESSION starts is never
    later than it; and the two coincide exactly when the ledger has no
    gap, i.e. holds every day from 1 to its size. *)
Theorem resumeDay_vs_nextAvailableDay (completedDays : list Z) :
  ledger_ok completedDays ->
  isDone completedDays (nextAvailableDay completedDays) = false
  /\ resumeDay completedDays <= nextAvailableDay completedDays
  /\ (resumeDay completedDays = nextAvailableDay completedDays
      <-> forall d, 1 <= d <= JS.length completedDays -> In d completedDays).
Proof.
  intros Hok. pose proof Hok as [Hnd Hpos].
  destruct completedDays as [| x arr] eqn:E.
  { unfold resumeDay, JS.length. simpl. repeat split; try lia; intros; lia. }
  rewrite <- E in *. assert (Hne : completedDays <> []) by (rewrite E; discriminate).
  clear E. destruct (nextAvailableDay_max completedDays Hne) as [Hin Hmax].
  destruct (ledger_within_max completedDays Hok Hne) as [Hincl Hm1].
  set (m := nextAvailableDay completedDays - 1) in *.
  assert (Hlen : JS.length completedDays <= m).
  { apply length_bounded; [lia | assumption |].
    intros d Hd. split; [now apply Hpos | now apply Hmax]. }
  split; [| split].
  - unfold isDone. apply includes_false. intros Hc. specialize (Hmax _ Hc). lia.
  - unfold resumeDay. lia.
  - unfold resumeDay. split.
    + intros Heq d Hd.
      assert (Hl : (List.length (interval 1 (Z.to_nat m))
                    <= List.length completedDays)%nat).
      { unfold interval. rewrite length_map, length_seq.
        unfold JS.length in *. lia. }
      apply (NoDup_length_incl Hnd Hl Hincl). apply interval_In. lia.
    + intros Hall.
      assert (Hincl' : incl (interval 1 (Z.to_nat (JS.length completedDays)))
                            completedDays).
      { intros d Hd. apply interval_In in Hd. apply Hall. unfold JS.length in *. lia. }
      assert (Hl : (List.length completedDays
                    <= List.length (interval 1 (Z.to_nat (JS.length completedDays))))%nat).
      { unfold interval. rewrite length_map, length_seq. unfold JS.length. lia. }
      pose proof (NoDup_length_incl (interval_NoDup 1 _) Hl Hincl' _ Hin) as Hm.
      apply interval_In in Hm. unfold JS.length in *. lia.
Qed.

(** X19. The Training Matrix shows the thirty consecutive days that
    follow the phase offset, and the day RESUME SESSION starts is always
    one of them. *)
Theorem resumeDay_in_trainingMatrix (completedDays : list Z) :
  trainingMatrix completedDays = interval (phaseDayOffset completedDays + 1) 30
  /\ In (resumeDay completedDays) (trainingMatrix completedDays)
  /\ phaseDayOffset completedDays <= JS.length completedDays
     < phaseDayOffset completedDays + 30.
Proof.
  assert (E : trainingMatrix completedDays
              = interval (phaseDayOffset completedDays + 1) 30).
  { unfold trainingMatrix, interval, gridDay. apply map_ext. intros i. lia. }
  assert (B : phaseDayOffset completedDays <= JS.length completedDays
              < phaseDayOffset completedDays + 30).
  { unfold phaseDayOffset, currentPhase.
    pose proof (Z.div_mod (JS.length completedDays) 30 ltac:(lia)).
    pose proof (Z.mod_pos_bound (JS.length completedDays) 30 ltac:(lia)). lia. }
  split; [exact E |]. split; [| exact B].
  rewrite E. apply interval_In. unfold resumeDay. lia.
Qed.

Lemma phaseProgress_bounds (completedDays : list Z) :
  NoDup completedDays -> 0 <= phaseProgress completedDays <= 30.
Proof.
  intros Hnd. unfold phaseProgress.
  set (l := filter _ completedDays).
  assert (Hincl : incl l (interval (phaseDayOffset completedDays + 1) 30)).
  { intros d Hd. subst l. apply filter_In in Hd. destruct Hd as [_ Hd].
    apply andb_true_iff in Hd. destruct Hd as [H1 H2].
    apply interval_In. lia. }
  assert (Hl : NoDup l) by (subst l; now apply NoDup_filter).
  pose proof (NoDup_incl_length Hl Hincl) as H.
  unfold interval in H. rewrite length_map, length_seq in H.
  unfold JS.length. lia.
Qed.

(** X20. For a ledger of distinct days the phase progress lies between 0
    and 30, and the percentage shown is the exactly rounded
    [progress * 100 / 30], a whole number between 0 and 100. *)
Theorem syncPercent_exact (completedDays : list Z) :
  NoDup completedDays ->
  0 <= phaseProgress completedDays <= 30
  /\ exists n,
       syncPercent completedDays = JS.Z2F n
       /\ n = (200 * phaseProgress completedDays + 30) / 60
       /\ 0 <= n <= 100.
Proof.
  intros Hnd. pose proof (phaseProgress_bounds completedDays Hnd) as Hb.
  split; [exact Hb |]. unfold syncPercent.
  set (p := phaseProgress completedDays) in *.
  exists ((200 * p + 30) / 60). split; [| split; [reflexivity |]].
  - apply FloatAxioms.Leibniz.eqb_spec.
    apply (interval_forallb
             (fun p => PrimFloat.Leibniz.eqb
                         (JS.Math_round (JS.Z2F p / 30 * 100)%float)
                         (JS.Z2F ((200 * p + 30) / 60))) 0 31); [| lia].
    vm_compute. reflexivity.
  - pose proof (Z.div_mod (200 * p + 30) 60 ltac:(lia)).
    pose proof (Z.mod_pos_bound (200 * p + 30) 60 ltac:(lia)). lia.
Qed.

(** ** The progress view *)

(** X21. RECENT ACTIVITY shows at most six days, all of them completed.
    Completing a day that is new to the ledger puts it first, ahead of
    the five most recent ones; completing a day again leaves the cards as
    they were. *)
Theorem recentActivity_after_completion (completedDays : list Z) (d : Z) :
  NoDup completedDays ->
  (List.length (recentActivity completedDays)
   = Nat.min 6 (List.length completedDays))
  /\ incl (recentActivity completedDays) completedDays
  /\ (~ In d completedDays ->
      recentActivity (recordCompletion d completedDays)
      = d :: firstn 5 (rev completedDays))
  /\ (In d completedDays ->
      recentActivity (recordCompletion d completedDays)
      = recentActivity completedDays).
Proof.
  intros Hnd. unfold recentActivity. split; [| split; [| split]].
  - now rewrite length_firstn, length_rev.
  - intros x Hx. apply In_rev.
    rewrite <- (firstn_skipn 6 (rev completedDays)). apply in_or_app. now left.
  - intros Hnin. unfold recordCompletion.
    rewrite Set_spread_fixed.
    + now rewrite rev_unit.
    + apply NoDup_app; [assumption | repeat constructor; simpl; tauto |].
      intros x Hx [<- | []]. contradiction.
  - intros Hin. now rewrite (recordCompletion_present d completedDays Hnd Hin).
Qed.

(** X22. CHECKPOINTS has one card per finished block of thirty
    completed days, so it is empty exactly when the "no checkpoints yet"
    note is shown (phase 1); card [i] covers the thirty days from
    [30 i + 1], all of them below the days of the Training Matrix. *)
Theorem checkpoints_cover_past_phases (completedDays : list Z) :
  JS.length (checkpoints completedDays) = JS.length completedDays / 30
  /\ (checkpoints completedDays = [] <-> currentPhase completedDays = 1)
  /\ (forall i lo hi,
        nth_error (checkpoints completedDays) i = Some (lo, hi) ->
        lo = 30 * Z.of_nat i + 1 /\ hi = lo + 29
        /\ hi <= phaseDayOffset completedDays).
Proof.
  assert (Hq : 0 <= JS.length completedDays / 30).
  { apply Z.div_pos; unfold JS.length; lia. }
  assert (Hlen : JS.length (checkpoints completedDays) = JS.length completedDays / 30).
  { unfold checkpoints, currentPhase. unfold JS.length at 1.
    rewrite length_map, length_seq. lia. }
  split; [exact Hlen |]. split.
  - unfold currentPhase. split.
    + intros E. rewrite E in Hlen. change (JS.length (@nil (Z * Z))) with 0 in Hlen.
      now rewrite <- Hlen.
    + intros E. destruct (checkpoints completedDays) eqn:Ec; [reflexivity |].
      unfold JS.length at 1 in Hlen. cbn [List.length] in Hlen.
      set (q := JS.length completedDays / 30) in *. lia.
  - intros i lo hi H. unfold checkpoints in H.
    rewrite nth_error_map in H.
    destruct (nth_error (seq 0 (Z.to_nat (currentPhase completedDays - 1))) i)
      as [k |] eqn:Ek; [| discriminate].
    assert (Hi : (i < Z.to_nat (currentPhase completedDays - 1))%nat).
    { assert (Hn : nth_error (seq 0 (Z.to_nat (currentPhase completedDays - 1))) i
                   <> None) by congruence.
      apply nth_error_Some in Hn. now rewrite length_seq in Hn. }
    apply nth_error_nth with (d := 0%nat) in Ek.
    rewrite (seq_nth _ _ Hi) in Ek.
    cbn [Nat.add] in Ek. subst k. injection H as <- <-.
    unfold phaseDayOffset. lia.
Qed.

(** ** The further properties at concrete sessions *)

Lemma day1Summary_reachable : reachable EXERCISES day1Summary.
Proof.
  apply (reachable_run EXERCISES day1Events freshApp).
  - apply reachable_init.
  - vm_compute. reflexivity.
Qed.

Lemma getWorkoutForDay_focus_Back :
  exists plan,
    getWorkoutForDay EXERCISES (-3) (Some "Back") = Some plan
    /\ map exercise plan = inCategory EXERCISES "Back".
Proof.
  destruct (getWorkoutForDay_focus EXERCISES (-3) "Back" eq_refl)
    as [plan [H1 [H2 _]]].
  exists plan. split; assumption.
Defined.

Lemma rotation_periodic_20 :
  exists plan plan',
    getWorkoutForDay EXERCISES 1 None = Some plan
    /\ getWorkoutForDay EXERCISES (1 + 20) None = Some plan'
    /\ map exercise plan' = map exercise plan.
Proof.
  apply (rotation_periodic EXERCISES 1 20).
  - reflexivity.
  - lia.
  - lia.
  - intros cat H. simpl in H.
    destruct H as [<- | [<- | [<- | [<- | [<- | []]]]]].
    + exists 4. reflexivity.
    + exists 4. reflexivity.
    + exists 5. reflexivity.
    + exists 4. reflexivity.
    + exists 5. reflexivity.
Defined.

Lemma focus_reps_exact_day21 :
  exists plan,
    getWorkoutForDay EXERCISES 21 (Some "Abs") = Some plan
    /\ Forall (fun item : PlanItem =>
                 reps item = JS.Z2F (exactReps (baseReps item) 21)) plan.
Proof.
  apply (focus_reps_exact 21 "Abs").
  - lia.
  - simpl. tauto.
Defined.

Lemma summary_screen_has_stats_day1 :
  (exists stats, lastStats day1Summary = Some stats)
  /\ In (currentDay (session day1Summary)) (completedDays day1Summary)
  /\ isActive (session day1Summary) = false.
Proof.
  apply (summary_screen_has_stats EXERCISES day1Summary).
  - exact day1Summary_reachable.
  - reflexivity.
Defined.

Lemma workout_screen_session_active_day1 :
  isActive (session midSession) = true
  /\ exists t, startTime (session midSession) = Some t.
Proof.
  apply (workout_screen_session_active EXERCISES midSession).
  - exact midSession_reachable.
  - reflexivity.
Defined.

Lemma no_rest_off_workout_screen_summary :
  isResting (session day1Summary) = false
  /\ handle EXERCISES Tick day1Summary = None
  /\ handle EXERCISES RestElapsed day1Summary = None.
Proof.
  apply (no_rest_off_workout_screen EXERCISES day1Summary).
  - exact day1Summary_reachable.
  - discriminate.
Defined.

Lemma onboarding_screen_iff_fresh :
  view freshApp = onboarding <-> UserData.onboarded (userData freshApp) = false.
Proof.
  apply (onboarding_screen_iff EXERCISES freshApp).
  apply reachable_init.
Defined.

Lemma ledger_stays_valid_day1 : ledger_ok (completedDays day1Summary).
Proof.
  apply (ledger_stays_valid EXERCISES onboardedUser INITIAL_CONFIG [] day1Events).
  - split; [constructor | intros d []].
  - vm_compute. reflexivity.
Defined.

Lemma ledger_written_only_on_completion_start :
  completedDays midSession = completedDays freshApp
  \/ (exists now now',
         SelectDay 0 1700000000000 = Complete now now'
         /\ view midSession = summary
         /\ completedDays midSession
            = recordCompletion (currentDay (session freshApp)) (completedDays freshApp))
  \/ (SelectDay 0 1700000000000 = Purge /\ completedDays midSession = []).
Proof.
  apply (ledger_written_only_on_completion EXERCISES
           (SelectDay 0 1700000000000) freshApp midSession).
  reflexivity.
Defined.

Lemma skipRecovery_advances_day1 :
  exists st1 st2,
    handle EXERCISES SkipRecovery lastRestSecond = Some st1
    /\ restTimeLeft (session st1) = 0%float
    /\ handle EXERCISES Tick st1 = None
    /\ handle EXERCISES RestElapsed st1 = Some st2
    /\ onExerciseScreen st2 = true
    /\ currentExerciseIndex (session st2)
       = currentExerciseIndex (session lastRestSecond) + 1
    /\ completedDays st2 = completedDays lastRestSecond.
Proof.
  apply (skipRecovery_advances EXERCISES lastRestSecond day1Plan).
  - reflexivity.
  - reflexivity.
Defined.

Lemma finish_session_day1 :
  exists st',
    run EXERCISES (finishFrom 4 1700000125000) midSession = Some st'
    /\ view st' = summary
    /\ isActive (session st') = false
    /\ currentDay (session st') = currentDay (session midSession)
    /\ completedDays st'
       = recordCompletion (currentDay (session midSession)) (completedDays midSession).
Proof.
  apply (finish_session EXERCISES 4 1700000125000 midSession day1Plan).
  - reflexivity.
  - reflexivity.
  - reflexivity.
Defined.


Lemma negative_rest_is_stuck_day1 :
  exists st',
    run EXERCISES [AdjustRest (-5); Complete 1700000030000 1700000030000] midSession
    = Some st'
    /\ onRestScreen st' = true
    /\ handle EXERCISES Tick st' = None
    /\ handle EXERCISES RestElapsed st' = None.
Proof.
  destruct (negative_rest_is_stuck EXERCISES midSession day1Plan (-5) 1700000030000)
    as [st' [H1 [H2 [_ [H3 [H4 _]]]]]].
  - reflexivity.
  - reflexivity.
  - reflexivity.
  - reflexivity.
  - exists st'. repeat split; assumption.
Defined.

Lemma announced_exercise_follows_day1 :
  exists item, currentExercise EXERCISES midSession = Some item.
Proof.
  destruct (announced_exercise_follows EXERCISES eq_refl midSession) as [H _].
  - exact midSession_reachable.
  - exact H.
Defined.

Lemma chevron_disabled_iff_noop_day1 :
  backDisabled midSession = true <-> previousExercise midSession = midSession.
Proof.
  destruct (chevron_disabled_iff_noop EXERCISES eq_refl midSession) as [H _].
  - exact midSession_reachable.
  - exact H.
Defined.

Lemma resumeDay_vs_nextAvailableDay_gap :
  isDone [5] (nextAvailableDay [5]) = false
  /\ resumeDay [5] <= nextAvailableDay [5].
Proof.
  destruct (resumeDay_vs_nextAvailableDay [5]) as [H1 [H2 _]].
  - split; [repeat constructor; simpl; tauto | intros d [<- | []]; lia].
  - split; assumption.
Defined.

Lemma syncPercent_exact_three_days :
  0 <= phaseProgress [1; 2; 3] <= 30
  /\ exists n,
       syncPercent [1; 2; 3] = JS.Z2F n
       /\ n = (200 * phaseProgress [1; 2; 3] + 30) / 60
       /\ 0 <= n <= 100.
Proof.
  apply (syncPercent_exact [1; 2; 3]).
  repeat constructor; simpl; intuition lia.
Defined.

Lemma recentActivity_after_completion_day8 :
  recentActivity (recordCompletion 8 [1; 2; 3; 4; 5; 6; 7]) = [8; 7; 6; 5; 4; 3].
Proof.
  destruct (recentActivity_after_completion [1; 2; 3; 4; 5; 6; 7] 8) as [_ [_ [H _]]].
  - repeat constructor; simpl; intuition lia.
  - rewrite H; [reflexivity |]. simpl. intuition lia.
Defined.

(** ** The dashboard without phases *)

(** X23. In the revision without phases the grid stops at day 30: the
    day RESUME SESSION starts is on it only while fewer than thirty days
    are completed.  The percentage in its header is the exactly rounded
    [|ledger| * 100 / 30] for every ledger of up to 300 days, hence above
    100 from the 31st completed day on. *)
Theorem dashboard_src_after_thirty_days (completedDays : list Z) :
  (In (resumeDay completedDays) trainingMatrix_src
   <-> JS.length completedDays < 30)
  /\ (JS.length completedDays <= 300 ->
      completePercent_src completedDays
      = JS.Z2F ((200 * JS.length completedDays + 30) / 60)
      /\ (30 < JS.length completedDays ->
          100 < (200 * JS.length completedDays + 30) / 60)).
Proof.
  split.
  - assert (E : trainingMatrix_src = interval 1 30).
    { unfold trainingMatrix_src, interval. apply map_ext. intros i. lia. }
    rewrite E, interval_In. unfold resumeDay, JS.length.
    change (Z.of_nat 30) with 30. split; intros; lia.
  - intros Hn. split.
    + unfold completePercent_src.
      apply FloatAxioms.Leibniz.eqb_spec.
      apply (interval_forallb
               (fun p => PrimFloat.Leibniz.eqb
                           (JS.Math_round (JS.Z2F p / 30 * 100)%float)
                           (JS.Z2F ((200 * p + 30) / 60))) 0 301);
        [vm_compute; reflexivity | unfold JS.length in *; lia].
    + intros Hl. set (n := JS.length completedDays) in *.
      pose proof (Z.div_mod (200 * n + 30) 60 ltac:(lia)).
      pose proof (Z.mod_pos_bound (200 * n + 30) 60 ltac:(lia)). lia.
Qed.
